(** * PicoHistogram: a shallow embedding of [histo_opt.py]

    The script reads the second column of a comma separated text file,
    computes a bin layout from a settings dictionary filled from
    [key=value] command line tokens, and redraws a histogram on every
    animation frame.

    The embedding keeps the shapes of the Python program:
    - a Python [float] is an IEEE 754 binary64 value ([spec_float] with
      precision 53 and maximal exponent 1024), a Python [int] is a [Z];
    - the settings dictionary is a [gmap string pyval] living in a heap of
      dictionaries, and functions receive a reference to it;
    - statements that print, open files, draw or raise run in a state and
      exception monad over a [world];
    - text is a sequence of one-byte characters ([string]), read as
      ASCII: a file is the text it decodes to, and a read either gives the
      whole text or fails at [open];
    - the plotting and array libraries are described by what their
      documentation says of the calls the script makes; what is drawn is
      recorded as a list of artists, the legend label keeping the values
      it is formatted from. *)

From Stdlib Require Import ZArith Lia Ascii String Floats.SpecFloat.
From stdpp Require Import base option list strings gmap.

Local Open Scope Z_scope.

(** ** Python floats: IEEE 754 binary64 *)

Module F64.

Definition prec : Z := 53.
Definition emax : Z := 1024.

Abbreviation float := spec_float.

Definition add : float -> float -> float := SFadd prec emax.
Definition sub : float -> float -> float := SFsub prec emax.
Definition mul : float -> float -> float := SFmul prec emax.
Definition div : float -> float -> float := SFdiv prec emax.

(** Nearest binary64 value of an integer, ties to even; an integer
    beyond the largest finite value becomes an infinity. *)
Definition of_Z (z : Z) : float := binary_normalize prec emax z 0 false.

Definition is_nan (x : float) : bool :=
  match x with S754_nan => true | _ => false end.

Definition is_finite (x : float) : bool :=
  match x with
  | S754_zero _ | S754_finite _ _ _ => true
  | S754_infinity _ | S754_nan => false
  end.

Definition is_zero (x : float) : bool :=
  match x with S754_zero _ => true | _ => false end.

Definition eqb : float -> float -> bool := SFeqb.
Definition ltb : float -> float -> bool := SFltb.
Definition leb : float -> float -> bool := SFleb.

(** The signed mantissa of a finite value: the value is
    [signed s m * 2 ^ e]. *)
Definition signed (s : bool) (m : positive) : Z :=
  if s then Z.neg m else Z.pos m.

(** Exact comparison of a float with an integer, as Python compares a
    [float] with an [int]; [None] when the float is a NaN. *)
Definition compare_Z (x : float) (k : Z) : option comparison :=
  match x with
  | S754_nan => None
  | S754_infinity s => Some (if s then Lt else Gt)
  | S754_zero _ => Some (0 ?= k)
  | S754_finite s m e =>
      Some (if 0 <=? e then signed s m * 2 ^ e ?= k
            else signed s m ?= k * 2 ^ (- e))
  end.

(** Rounding toward zero, the integer [int(x)] of a finite [x]. *)
Definition trunc (x : float) : option Z :=
  match x with
  | S754_zero _ => Some 0
  | S754_finite s m e =>
      Some (if 0 <=? e then signed s m * 2 ^ e
            else Z.quot (signed s m) (2 ^ (- e)))
  | S754_infinity _ | S754_nan => None
  end.

(** Rounding toward minus infinity, the mathematical floor. *)
Definition floor (x : float) : option Z :=
  match x with
  | S754_zero _ => Some 0
  | S754_finite s m e =>
      Some (if 0 <=? e then signed s m * 2 ^ e
            else Z.div (signed s m) (2 ^ (- e)))
  | S754_infinity _ | S754_nan => None
  end.

(** The value [m * 10 ^ e10] of a decimal literal with sign [s],
    correctly rounded. *)
Definition of_decimal (s : bool) (m : Z) (e10 : Z) : float :=
  match m with
  | Z.pos p =>
      if 0 <=? e10
      then binary_normalize prec emax (signed s p * 10 ^ e10) 0 false
      else div (S754_finite s p 0) (S754_finite false (Pos.pow 10 (Z.to_pos (- e10))) 0)
  | _ => S754_zero s
  end.

End F64.

Abbreviation float := spec_float.

(** ** Text functions of the Python runtime *)

Module Text.

Local Open Scope string_scope.
Local Open Scope Z_scope.

Definition code (c : ascii) : Z := Z.of_N (N_of_ascii c).

(** [str.lower] on one-byte characters: [A-Z] become [a-z]. *)
Definition lower_char (c : ascii) : ascii :=
  if (65 <=? code c) && (code c <=? 90)
  then ascii_of_N (N_of_ascii c + 32) else c.

Fixpoint lower (s : string) : string :=
  match s with
  | EmptyString => EmptyString
  | String c r => String (lower_char c) (lower r)
  end.

(** [s.split(sep)] for a one character separator: the fields between
    the separators, always at least one field. *)
Fixpoint split (sep : ascii) (s : string) : list string :=
  match s with
  | EmptyString => [EmptyString]
  | String c r =>
      if Ascii.eqb c sep then EmptyString :: split sep r
      else match split sep r with
           | f :: fs => String c f :: fs
           | [] => [String c EmptyString]
           end
  end.

(** The lines a text file yields when iterated: each line keeps its
    terminating newline, the last one may lack it.  Universal newline
    translation has turned CR LF and CR into LF. *)
Fixpoint universal_newlines (s : string) : string :=
  match s with
  | EmptyString => EmptyString
  | String c r =>
      if Ascii.eqb c "013"
      then match r with
           | String d r' =>
               if Ascii.eqb d "010" then String "010" (universal_newlines r')
               else String "010" (universal_newlines r)
           | EmptyString => String "010" EmptyString
           end
      else String c (universal_newlines r)
  end.

Fixpoint lines_of (s : string) : list string :=
  match s with
  | EmptyString => []
  | String c r =>
      if Ascii.eqb c "010" then String c EmptyString :: lines_of r
      else match lines_of r with
           | l :: ls => String c l :: ls
           | [] => [String c EmptyString]
           end
  end.

Definition readlines (contents : string) : list string :=
  lines_of (universal_newlines contents).

(** White space stripped by [float()] and [int()]: the space, and the
    characters from the tabulation to the carriage return. *)
Definition is_space (c : ascii) : bool :=
  let n := code c in
  (n =? 32) || ((9 <=? n) && (n <=? 13)).

Fixpoint lstrip (s : string) : string :=
  match s with
  | String c r => if is_space c then lstrip r else s
  | EmptyString => EmptyString
  end.

Fixpoint rstrip (s : string) : string :=
  match s with
  | EmptyString => EmptyString
  | String c r =>
      match rstrip r with
      | EmptyString => if is_space c then EmptyString else String c EmptyString
      | r' => String c r'
      end
  end.

Definition strip (s : string) : string := rstrip (lstrip s).

Definition is_digit (c : ascii) : bool := (48 <=? code c) && (code c <=? 57).

Definition digit_val (c : ascii) : Z := code c - 48.

(** Underscores are accepted in numeric literals only between two
    digits; [drop_underscores prev s] removes them, [prev] telling
    whether the previous character was a digit. *)
Fixpoint drop_underscores (prev : bool) (s : string) : option string :=
  match s with
  | EmptyString => Some EmptyString
  | String c r =>
      if Ascii.eqb c "_"
      then match r with
           | String d _ =>
               if prev && is_digit d then drop_underscores false r else None
           | EmptyString => None
           end
      else String c <$> drop_underscores (is_digit c) r
  end.

(** A maximal run of decimal digits: its value, its length, the rest. *)
Fixpoint digits (acc : Z) (n : Z) (s : string) : Z * Z * string :=
  match s with
  | String c r =>
      if is_digit c then digits (10 * acc + digit_val c) (n + 1) r
      else (acc, n, s)
  | EmptyString => (acc, n, s)
  end.

(** An optional sign: [true] for minus. *)
Definition sign (s : string) : bool * string :=
  match s with
  | String c r =>
      if Ascii.eqb c "-" then (true, r)
      else if Ascii.eqb c "+" then (false, r)
      else (false, s)
  | EmptyString => (false, s)
  end.

(** [int(s)] for text in base ten; [None] stands for [ValueError]. *)
Definition parse_int (s : string) : option Z :=
  s1 ← drop_underscores false (strip s);
  let '(neg, s2) := sign s1 in
  let '(v, n, rest) := digits 0 0 s2 in
  if (0 <? n) && bool_decide (rest = EmptyString)
  then Some (if neg then - v else v) else None.

(** The exponent part of a float literal. *)
Definition exponent (s : string) : option Z :=
  match s with
  | EmptyString => Some 0
  | String c r =>
      if Ascii.eqb c "e" || Ascii.eqb c "E"
      then let '(neg, r1) := sign r in
           let '(v, n, rest) := digits 0 0 r1 in
           if (0 <? n) && bool_decide (rest = EmptyString)
           then Some (if neg then - v else v) else None
      else None
  end.

(** [float(s)] for text; [None] stands for [ValueError]. *)
Definition parse_float (s : string) : option float :=
  s1 ← drop_underscores false (strip s);
  let '(neg, s2) := sign s1 in
  let w := lower s2 in
  if bool_decide (w = "inf") || bool_decide (w = "infinity")
  then Some (S754_infinity neg)
  else if bool_decide (w = "nan") then Some S754_nan
  else
    let '(ip, ni, s3) := digits 0 0 s2 in
    let '(fp, nf, s4) :=
      match s3 with
      | String c r => if Ascii.eqb c "." then digits ip 0 r else (ip, 0, s3)
      | EmptyString => (ip, 0, s3)
      end in
    if 0 <? ni + nf
    then e ← exponent s4; Some (F64.of_decimal neg fp (e - nf))
    else None.

End Text.

(** ** Python values, exceptions and the state of a run *)

Inductive pyval :=
| VInt (n : Z)
| VFloat (x : float)
| VStr (s : string).

(** The argument of [sys.exit]. *)
Inductive exit_arg :=
| ExitCode (n : Z)
| ExitMessage (msg : string).

Inductive exn :=
| ValueError (msg : string)
| KeyError (key : string)
| NameError (name : string)
| IndexError
| TypeError
| OverflowError
| ZeroDivisionError
| OSError (path : string)
| SystemExit (arg : exit_arg).

Inductive result (A : Type) :=
| Ok (a : A)
| Raise (e : exn).
Arguments Ok {A} a.
Arguments Raise {A} e.

(** What the plotting library has drawn on the current figure. *)
Record hist_label := HistLabel {
  lbl_entries : Z;
  lbl_maxrange : pyval;
  lbl_minrange : pyval;
  lbl_bin_length : pyval;
  lbl_nbins : pyval
}.

Inductive artist :=
| Bars (heights : list Z) (edges : list float) (color : string) (label : hist_label)
| XLabel (text : string)
| YLabel (text : string)
| Legend
| XTicks (ticks : list float)
| Annotation (x : float) (y : Z) (text : Z).

Abbreviation dict := (gmap string pyval).
Abbreviation ref := nat.

(** The state a run can observe or change:
    - [files]: the readable text files, by path (a path that is absent
      cannot be opened);
    - [palette]: the colour names the plotting library knows;
    - [heap]: the dictionaries allocated so far, a reference being an
      index;
    - [stdout]: the texts printed so far, oldest first;
    - [figure]: the content of the current figure, [None] before any
      figure exists. *)
Record world := World {
  files : gmap string string;
  palette : gset string;
  heap : list dict;
  stdout : list string;
  figure : option (list artist)
}.

(** *** The monad of statements *)

Definition M (A : Type) : Type := world -> result A * world.

#[global] Instance M_ret : MRet M := fun A a w => (Ok a, w).

#[global] Instance M_bind : MBind M := fun A B f m w =>
  match m w with
  | (Ok a, w') => f a w'
  | (Raise e, w') => (Raise e, w')
  end.

Definition raise {A} (e : exn) : M A := fun w => (Raise e, w).

Definition lift {A} (r : result A) : M A := fun w => (r, w).

(** [try: body except <classes>: handler], [handles] deciding the
    exception classes of the clause. *)
Definition try_except {A} (body : M A) (handles : exn -> bool) (handler : exn -> M A) : M A :=
  fun w =>
    match body w with
    | (Raise e, w') => if handles e then handler e w' else (Raise e, w')
    | r => r
    end.

(** [for x in xs:] over a loop body that threads the local variables. *)
Fixpoint for_each {A S} (body : S -> A -> M S) (st : S) (xs : list A) : M S :=
  match xs with
  | [] => mret st
  | x :: xs' => st' ← body st x; for_each body st' xs'
  end.

(** Short-circuit [a and b]. *)
Definition py_and (a b : M bool) : M bool :=
  x ← a; if x : bool then b else mret false.

Definition is_ValueError (e : exn) : bool :=
  match e with ValueError _ => true | _ => false end.

(** [FileNotFoundError] is a subclass of [OSError], of which [IOError]
    is another name. *)
Definition is_OSError (e : exn) : bool :=
  match e with OSError _ => true | _ => false end.

(** The exit status of the process when a run ends with [r]: zero on a
    normal end, the code given to [sys.exit], and one for [sys.exit]
    with a message and for every other uncaught exception. *)
Definition exit_status {A} (r : result A) : Z :=
  match r with
  | Ok _ => 0
  | Raise (SystemExit (ExitCode n)) => n
  | Raise _ => 1
  end.

(** *** Built-in operations *)

Definition py_print (text : string) : M unit :=
  fun w => (Ok (), World (files w) (palette w) (heap w) (stdout w ++ [text]) (figure w)).

Definition sys_exit (arg : exit_arg) : M unit := raise (SystemExit arg).

(** [open(path, 'r')], read whole. *)
Definition py_open (path : string) : M string :=
  fun w =>
    match files w !! path with
    | Some contents => (Ok contents, w)
    | None => (Raise (OSError path), w)
    end.

Definition py_float (s : string) : result float :=
  match Text.parse_float s with
  | Some x => Ok x
  | None => Raise (ValueError "could not convert string to float")
  end.

Definition py_int_of_str (s : string) : result Z :=
  match Text.parse_int s with
  | Some n => Ok n
  | None => Raise (ValueError "invalid literal for int() with base 10")
  end.

(** [xs[i]] on a list. *)
Definition py_index {A} (xs : list A) (i : nat) : result A :=
  match xs !! i with
  | Some x => Ok x
  | None => Raise IndexError
  end.

(** [a, b = xs] *)
Definition unpack2 {A} (xs : list A) : result (A * A) :=
  match xs with
  | [a; b] => Ok (a, b)
  | [] | [_] => Raise (ValueError "not enough values to unpack (expected 2)")
  | _ => Raise (ValueError "too many values to unpack (expected 2)")
  end.

(** *** Dictionaries on the heap *)

(** References are created by [dict_new] only; a reference outside the
    heap reads as an empty dictionary. *)
Definition deref (w : world) (r : ref) : dict := default ∅ (heap w !! r).

(** [{...}]: a new dictionary. *)
Definition dict_new (d : dict) : M ref :=
  fun w => (Ok (length (heap w)),
            World (files w) (palette w) (heap w ++ [d]) (stdout w) (figure w)).

(** [d[key]] *)
Definition dict_get (r : ref) (key : string) : M pyval :=
  fun w =>
    match deref w r !! key with
    | Some v => (Ok v, w)
    | None => (Raise (KeyError key), w)
    end.

(** [d[key] = v] *)
Definition dict_set (r : ref) (key : string) (v : pyval) : M unit :=
  fun w => (Ok (), World (files w) (palette w)
                         (<[r := <[key := v]> (deref w r)]> (heap w))
                         (stdout w) (figure w)).

(** *** Arithmetic on values *)

(** An [int] converted to [float] for mixed arithmetic. *)
Definition to_float (n : Z) : result float :=
  let x := F64.of_Z n in
  if F64.is_finite x then Ok x else Raise OverflowError.

Definition num_float (v : pyval) : result float :=
  match v with
  | VInt n => to_float n
  | VFloat x => Ok x
  | VStr _ => Raise TypeError
  end.

(** Arithmetic on two numbers of which one at least is a float: an
    integer operand is converted first. *)
Definition float_binop (f : float -> float -> float) (a b : pyval) : result pyval :=
  match a, b with
  | VStr _, _ | _, VStr _ => Raise TypeError
  | _, _ =>
      match num_float a with
      | Ok x =>
          match num_float b with
          | Ok y => Ok (VFloat (f x y))
          | Raise e => Raise e
          end
      | Raise e => Raise e
      end
  end.

(** [a - b] *)
Definition py_sub (a b : pyval) : result pyval :=
  match a, b with
  | VInt m, VInt n => Ok (VInt (m - n))
  | _, _ => float_binop F64.sub a b
  end.

(** [a + b] on numbers. *)
Definition py_add (a b : pyval) : result pyval :=
  match a, b with
  | VInt m, VInt n => Ok (VInt (m + n))
  | _, _ => float_binop F64.add a b
  end.

(** The sign and magnitude of a non-zero integer as an unrounded
    binary value. *)
Definition exact_of_Z (n : Z) : float :=
  match n with
  | Z0 => S754_zero false
  | Z.pos p => S754_finite false p 0
  | Z.neg p => S754_finite true p 0
  end.

(** [v == 0] on numbers. *)
Definition num_is_zero (v : pyval) : bool :=
  match v with
  | VInt n => n =? 0
  | VFloat x => F64.is_zero x
  | VStr _ => false
  end.

(** [a / b], true division: a zero divisor raises [ZeroDivisionError];
    two integers give the correctly rounded quotient. *)
Definition py_truediv (a b : pyval) : result pyval :=
  match a, b with
  | VStr _, _ | _, VStr _ => Raise TypeError
  | _, _ =>
      if num_is_zero b then Raise ZeroDivisionError
      else
        match a, b with
        | VInt m, VInt n =>
            let q := F64.div (exact_of_Z m) (exact_of_Z n) in
            if F64.is_finite q then Ok (VFloat q) else Raise OverflowError
        | _, _ => float_binop F64.div a b
        end
  end.

(** [int(v)] *)
Definition py_int (v : pyval) : result Z :=
  match v with
  | VInt n => Ok n
  | VFloat x =>
      match F64.trunc x with
      | Some n => Ok n
      | None =>
          if F64.is_nan x
          then Raise (ValueError "cannot convert float NaN to integer")
          else Raise OverflowError
      end
  | VStr s => py_int_of_str s
  end.

(** [v == k] for an integer literal [k]. *)
Definition py_eq_int (v : pyval) (k : Z) : bool :=
  match v with
  | VInt n => n =? k
  | VFloat x => match F64.compare_Z x k with Some Eq => true | _ => false end
  | VStr _ => false
  end.

(** [v > k] for an integer literal [k]. *)
Definition py_gt_int (v : pyval) (k : Z) : result bool :=
  match v with
  | VInt n => Ok (k <? n)
  | VFloat x => Ok (match F64.compare_Z x k with Some Gt => true | _ => false end)
  | VStr _ => Raise TypeError
  end.

(** [v == s] for a text literal [s]. *)
Definition py_eq_str (v : pyval) (s : string) : bool :=
  match v with
  | VStr t => bool_decide (t = s)
  | _ => false
  end.

(** ** The libraries the script calls *)

(** [numpy.histogram] with an integer number of equal-width bins and an
    explicit range, as its documentation describes it: the edges come from
    [linspace], every bin is half-open except the last, which contains
    its right edge, and samples outside the range are dropped. *)
Module Np.

Definition half : float := Eval vm_compute in F64.div (F64.of_Z 1) (F64.of_Z 2).

(** [linspace(start, stop, n + 1)]: [n + 1] points, the last one set
    to [stop]. *)
Definition linspace (start stop : float) (n : Z) : list float :=
  let delta := F64.sub stop start in
  let step := F64.div delta (F64.of_Z n) in
  let point (i : Z) :=
    let y := F64.of_Z i in
    F64.add (if F64.is_zero step
             then F64.mul (F64.div y (F64.of_Z n)) delta
             else F64.mul y step) start in
  (point <$> seqZ 0 n) ++ [stop].

Definition outer_edges (lo hi : float) : result (float * float) :=
  if F64.ltb hi lo
  then Raise (ValueError "max must be larger than min in range parameter.")
  else if negb (F64.is_finite lo && F64.is_finite hi)
  then Raise (ValueError "supplied range is not finite")
  else if F64.eqb lo hi then Ok (F64.sub lo half, F64.add hi half)
  else Ok (lo, hi).

Definition in_bin (lo hi : float) (last : bool) (x : float) : bool :=
  F64.leb lo x && (F64.ltb x hi || (last && F64.leb x hi)).

Fixpoint count_if {A} (p : A -> bool) (xs : list A) : Z :=
  match xs with
  | [] => 0
  | x :: xs' => (if p x then 1 else 0) + count_if p xs'
  end.

Fixpoint counts (edges : list float) (data : list float) : list Z :=
  match edges with
  | lo :: tl =>
      match tl with
      | hi :: rest =>
          count_if (in_bin lo hi (bool_decide (rest = []))) data :: counts tl data
      | [] => []
      end
  | [] => []
  end.

Definition histogram (data : list float) (nbins : Z) (lo hi : float)
  : result (list Z * list float) :=
  if nbins <? 1
  then Raise (ValueError "`bins` must be positive, when an integer")
  else
    match outer_edges lo hi with
    | Ok (first_edge, last_edge) =>
        let edges := linspace first_edge last_edge nbins in
        Ok (counts edges data, edges)
    | Raise e => Raise e
    end.

End Np.

(** [matplotlib.pyplot]: drawing is recorded on the current figure. *)
Module Plt.

Definition set_figure (f : option (list artist)) : M unit :=
  fun w => (Ok (), World (files w) (palette w) (heap w) (stdout w) f).

Definition draw (a : artist) : M unit :=
  fun w => set_figure (Some (default [] (figure w) ++ [a])) w.

(** [plt.subplots()]: a new, empty figure. *)
Definition subplots : M unit := set_figure (Some []).

(** [plt.clf()]: clear the current figure. *)
Definition clf : M unit := set_figure (Some []).

Definition known_color (c : pyval) : M string :=
  fun w =>
    match c with
    | VStr s =>
        if bool_decide (s ∈ palette w) then (Ok s, w)
        else (Raise (ValueError "not a valid color value"), w)
    | _ => (Raise (ValueError "Invalid RGBA argument"), w)
    end.

(** [plt.hist(data, bins=nbins, color=color, range=(lo, hi), ...,
    label=...)]: the bar heights and the bin edges. *)
Definition hist (data : list float) (nbins : pyval) (color : pyval)
    (range : pyval * pyval) (label : hist_label) : M (list Z * list float) :=
  c ← known_color color;
  n ← lift (match nbins with VInt n => Ok n | _ => Raise TypeError end);
  lo ← lift (num_float range.1);
  hi ← lift (num_float range.2);
  r ← lift (Np.histogram data n lo hi);
  draw (Bars r.1 r.2 c label);;
  mret r.

Definition xlabel (text : string) : M unit := draw (XLabel text).
Definition ylabel (text : string) : M unit := draw (YLabel text).
Definition legend : M unit := draw Legend.
Definition xticks (ticks : list float) : M unit := draw (XTicks ticks).
Definition text (x : float) (y : Z) (s : Z) : M unit := draw (Annotation x y s).

End Plt.

(** ** The script *)

Local Open Scope string_scope.
Local Open Scope Z_scope.
Local Open Scope list_scope.

(** The module's documentation text, [__doc__]: the usage text. *)
Definition module_doc : string :=
"
This script animates a histogram that reads data from a file and dynamically updates it. 
The histogram's properties such as the number of bins, color, and range can be configured 
using command-line arguments.

Inputs:
  - file: The path to the CSV file containing the data.
  - maxrange: Maximum range of the histogram (default: 1,500,000).
  - minrange: Minimum range of the histogram (default: 0).
  - binlength: Length of each bin (used if 'bins' is not specified, default: 0).
  - bins: Number of bins in the histogram (used if 'binlength' is not specified, default: 0).
  - color: Color of the histogram bins (default: 'b' for blue).
  - values: If 'true', displays the count of values in each bin (default: 'true').

Example Usage:

python3 histo_opt.py file=MeasurementLog2024912.csv maxrange=2000 minrange=0 bins=20 color=b values=true

".

(** The names bound at module level once the module has run: its
    imports, its functions and the attributes every module has. *)
Definition module_globals : list string :=
  ["__name__"; "__doc__"; "matplotlib"; "FuncAnimation"; "plt"; "np"; "sys";
   "read_data"; "plot_histogram"; "draw_histogram"; "parse_args"; "main"].

(** The built-in functions, and the built-in exceptions the script
    names. *)
Definition builtin_names : list string :=
  ["__import__"; "abs"; "aiter"; "all"; "anext"; "any"; "ascii"; "bin";
   "bool"; "breakpoint"; "bytearray"; "bytes";
   "callable"; "chr"; "classmethod"; "compile"; "complex"; "delattr";
   "dict"; "dir"; "divmod"; "enumerate"; "eval"; "exec"; "filter"; "float";
   "format"; "frozenset"; "getattr"; "globals"; "hasattr"; "hash"; "help";
   "hex"; "id"; "input"; "int"; "isinstance"; "issubclass"; "iter"; "len";
   "list"; "locals"; "map"; "max"; "memoryview"; "min"; "next"; "object";
   "oct"; "open"; "ord"; "pow"; "print"; "property"; "range"; "repr";
   "reversed"; "round"; "set"; "setattr"; "slice"; "sorted"; "staticmethod";
   "str"; "sum"; "super"; "tuple"; "type"; "vars"; "zip";
   "ValueError"; "FileNotFoundError"; "IOError"].

(** Evaluating a global name: it is looked up in the module, then in the
    built-ins, and [NameError] is raised when neither binds it. *)
Definition load_global (name : string) : M unit :=
  if bool_decide (name ∈ module_globals) || bool_decide (name ∈ builtin_names)
  then mret ()
  else raise (NameError name).

(** *** [read_data] *)

(** The body of the loop over the lines; [i] and [data] are the local
    variables it updates. *)
Definition read_row (st : Z * list float) (line : string) : M (Z * list float) :=
  let '(i, data) := st in
  if i =? 0 then mret (i + 1, data)
  else
    let info := Text.split "," line in
    if 1 <? Z.of_nat (length info)
    then try_except
           (field ← lift (py_index info 1);
            x ← lift (py_float field);
            mret (i, data ++ [x]))
           is_ValueError
           (fun _ => mret (i, data))
    else mret (i, data).

Definition read_data (filePath : string) : M (list float) :=
  try_except
    (fhand ← py_open filePath;
     st ← for_each read_row (0, []) (Text.readlines fhand);
     mret st.2)
    is_OSError
    (fun _ =>
       py_print ("Error: The file '" +:+ filePath +:+ "' could not be found or opened.");;
       (* display_help(): the name is evaluated first *)
       load_global "display_help";;
       sys_exit (ExitCode 1);;
       mret []).

(** *** [plot_histogram] *)

(** Lines 62 to 69: the number of bins and the bin length. *)
Definition bin_layout (config : ref) (maxrange minrange : pyval) : M (pyval * pyval) :=
  c1 ← py_and (bins ← dict_get config "bins"; mret (py_eq_int bins 0))
              (binlength ← dict_get config "binlength"; lift (py_gt_int binlength 0));
  if c1 : bool then
    bin_length ← dict_get config "binlength";
    width ← lift (py_sub maxrange minrange);
    q ← lift (py_truediv width bin_length);
    nbins ← lift (py_int q);
    mret (VInt nbins, bin_length)
  else
    c2 ← py_and (binlength ← dict_get config "binlength"; mret (py_eq_int binlength 0))
                (bins ← dict_get config "bins"; lift (py_gt_int bins 0));
    if c2 : bool then
      nbins ← dict_get config "bins";
      width ← lift (py_sub maxrange minrange);
      bin_length ← lift (py_truediv width nbins);
      mret (nbins, bin_length)
    else
      raise (ValueError "Either the number of bins or the bin length must be specified.").

(** The body of the loop that writes the count above each bar. *)
Definition annotate (bin_length : pyval) (_ : unit) (bv : float * Z) : M unit :=
  let '(b, v) := bv in
  if 0 <? v then
    h ← lift (py_truediv bin_length (VInt 2));
    x ← lift (py_add (VFloat b) h);
    match x with
    | VFloat x' => Plt.text x' v v
    | _ => raise TypeError
    end
  else mret ().

Definition plot_histogram (config : ref) : M unit :=
  file ← dict_get config "file";
  data ← match file with
         | VStr filePath => read_data filePath
         | _ => raise TypeError
         end;
  maxrange ← dict_get config "maxrange";
  minrange ← dict_get config "minrange";
  color ← dict_get config "color";
  let entries := Z.of_nat (length data) in
  layout ← bin_layout config maxrange minrange;
  let '(nbins, bin_length) := layout in
  Plt.clf;;
  h ← Plt.hist data nbins color (minrange, maxrange)
        (HistLabel entries maxrange minrange bin_length nbins);
  let '(values, bins) := h in
  Plt.xlabel "Value";;
  Plt.ylabel "Frequency";;
  Plt.legend;;
  Plt.xticks bins;;
  show ← dict_get config "values";
  if py_eq_str show "true"
  then for_each (annotate bin_length) () (zip bins values)
  else mret ().

(** *** [draw_histogram] *)

Definition draw_histogram (i : Z) (config : ref) : M unit :=
  plot_histogram config.

(** *** [parse_args] *)

Definition default_config : dict :=
  <["bins" := VInt 0]>
  (<["values" := VStr "true"]>
  (<["color" := VStr "b"]>
  (<["minrange" := VInt 0]>
  (<["maxrange" := VFloat (F64.of_Z 1500000)]>
  (<["binlength" := VInt 0]> ∅))))).

(** The body of the loop over [sys.argv[1:]]. *)
Definition parse_arg (config : ref) (_ : unit) (arg : string) : M unit :=
  try_except
    (kv ← lift (unpack2 (Text.split "=" arg));
     let '(key, value) := kv in
     if bool_decide (Text.lower key ∈ ["binlength"; "maxrange"; "minrange"])
     then x ← lift (py_float value); dict_set config key (VFloat x)
     else if bool_decide (Text.lower key ∈ ["file"; "color"; "values"])
     then dict_set config key (VStr value)
     else if bool_decide (Text.lower key = "bins")
     then n ← lift (py_int_of_str value); dict_set config key (VInt n)
     else mret ())
    is_ValueError
    (fun _ =>
       py_print module_doc;;
       sys_exit (ExitMessage ("Invalid argument format: " +:+ arg))).

(** [argv] is [sys.argv[1:]]. *)
Definition parse_args (argv : list string) : M ref :=
  config ← dict_new default_config;
  for_each (parse_arg config) () argv;;
  mret config.

(** *** [main] *)

(** The animation calls [draw_histogram] once per frame until the window
    is closed; [frames] are the frame numbers it passes.  An exception
    ends the run. *)
Definition main (argv : list string) (frames : list Z) : M unit :=
  config ← parse_args argv;
  Plt.subplots;;
  for_each (fun _ i => draw_histogram i config) () frames.

(** * Notions of the specification *)

(** ** Sample extraction *)

(** The sample a data row contributes, in the words of the
    specification: the row splits on comma into at least two fields and
    its second field parses as a float. *)
Definition row_sample (line : string) : option float :=
  match Text.split "," line with
  | _ :: field :: _ => Text.parse_float field
  | _ => None
  end.



(** ** Bin layout *)

(** The configuration error of the render path. *)
Definition config_error : exn :=
  ValueError "Either the number of bins or the bin length must be specified.".

Definition numeric (v : pyval) : bool :=
  match v with VStr _ => false | _ => true end.

(** A setting is non-zero when it is not the number zero (a NaN is
    non-zero). *)
Definition nonzero (v : pyval) : bool :=
  match v with
  | VInt n => negb (n =? 0)
  | VFloat x => negb (F64.is_zero x)
  | VStr _ => true
  end.

(** A setting is positive when it is a number above zero. *)
Definition above_zero (v : pyval) : bool :=
  match v with
  | VInt n => 0 <? n
  | VFloat (S754_finite false _ _) | VFloat (S754_infinity false) => true
  | _ => false
  end.

Definition exactly_one_nonzero (bins binlength : pyval) : bool :=
  xorb (nonzero bins) (nonzero binlength).

(** One of the two settings is positive and the other is zero. *)
Definition one_positive_other_zero (bins binlength : pyval) : bool :=
  (negb (nonzero bins) && above_zero binlength)
  || (negb (nonzero binlength) && above_zero bins).

(** The layout as a value of the two settings and the range, once the
    settings are numbers. *)
Definition layout_of (bins binlength maxrange minrange : pyval) : result (pyval * pyval) :=
  if negb (nonzero bins) && above_zero binlength then
    match py_sub maxrange minrange with
    | Ok width =>
        match py_truediv width binlength with
        | Ok q =>
            match py_int q with
            | Ok nbins => Ok (VInt nbins, binlength)
            | Raise e => Raise e
            end
        | Raise e => Raise e
        end
    | Raise e => Raise e
    end
  else if negb (nonzero binlength) && above_zero bins then
    match py_sub maxrange minrange with
    | Ok width =>
        match py_truediv width bins with
        | Ok bin_length => Ok (bins, bin_length)
        | Raise e => Raise e
        end
    | Raise e => Raise e
    end
  else Raise config_error.

(** A float that is not below zero: a zero, or a positive value. *)
Definition not_negative (x : float) : bool :=
  match x with
  | S754_zero _ | S754_finite false _ _ | S754_infinity false => true
  | _ => false
  end.

(** ** Command line tokens *)

(** A token is malformed when it does not split on "=" into exactly two
    parts. *)
Definition malformed (arg : string) : Prop :=
  length (Text.split "=" arg) ≠ 2%nat.

Definition recognized_keys : list string :=
  ["binlength"; "maxrange"; "minrange"; "file"; "color"; "values"; "bins"].

(** The value stored for a key and the text given for it: a float for
    the range and bin length keys, an integer for the bin count, the text
    itself for the others; [None] when the text does not convert. *)
Definition token_value (key value : string) : option pyval :=
  if bool_decide (Text.lower key ∈ ["binlength"; "maxrange"; "minrange"])
  then VFloat <$> Text.parse_float value
  else if bool_decide (Text.lower key = "bins")
  then VInt <$> Text.parse_int value
  else Some (VStr value).

(** A token the parser accepts: two parts, and a value that converts. *)
Definition accepted (arg : string) : Prop :=
  exists key value, Text.split "=" arg = [key; value] /\ is_Some (token_value key value).


(** What an aborted parse leaves: the usage text printed, and
    [sys.exit] called with a message naming the token. *)
Definition usage_exit (arg : string) (w : world) : result unit * world :=
  (Raise (SystemExit (ExitMessage ("Invalid argument format: " +:+ arg))),
   World (files w) (palette w) (heap w) (stdout w ++ [module_doc]) (figure w)).

(** What a token does when it is accepted: the converted value is stored
    under the key as it was typed, or nothing is stored for a key that is
    not recognized. *)
Definition store_token (config : ref) (key value : string) (v : pyval) (w : world) : world :=
  if bool_decide (Text.lower key ∈ recognized_keys)
  then World (files w) (palette w)
         (<[config := <[key := v]> (deref w config)]> (heap w)) (stdout w) (figure w)
  else w.

(** The shape of the settings that argument parsing builds: an integer
    bin count, a zero or a float for the bin length and the lower end of
    the range, a float for the upper end, text for the colour and the
    label flag. *)
Definition settings_typed (d : dict) : Prop :=
  (exists n, d !! "bins" = Some (VInt n))
  /\ (d !! "binlength" = Some (VInt 0) \/ exists x, d !! "binlength" = Some (VFloat x))
  /\ (exists x, d !! "maxrange" = Some (VFloat x))
  /\ (d !! "minrange" = Some (VInt 0) \/ exists x, d !! "minrange" = Some (VFloat x))
  /\ (exists c, d !! "color" = Some (VStr c))
  /\ (exists t, d !! "values" = Some (VStr t)).

(** ** Worlds *)

(** Two worlds with the same files, palette and dictionaries. *)
Definition same_inputs (w w' : world) : Prop :=
  files w' = files w /\ palette w' = palette w /\ heap w' = heap w.

(** A statement is quiet when it leaves the files, the palette, the
    dictionaries and the figure as they are, and its result depends on the
    files, the palette and the dictionaries only. *)
Definition quiet {A} (m : M A) : Prop :=
  forall w,
    same_inputs w (snd (m w))
    /\ figure (snd (m w)) = figure w
    /\ forall w', same_inputs w w' -> fst (m w') = fst (m w).

(** A statement is a painter when it leaves the files, the palette and
    the dictionaries as they are, and its result and the figure it leaves
    depend on them and on the figure it starts from only. *)
Definition painter {A} (m : M A) : Prop :=
  forall w,
    same_inputs w (snd (m w))
    /\ forall w', same_inputs w w' -> figure w' = figure w ->
         fst (m w') = fst (m w) /\ figure (snd (m w')) = figure (snd (m w)).

(** A statement repaints when, run on the same files, palette and
    dictionaries, it gives the same result, and either leaves the same
    figure or does not touch the figure at all. *)
Definition repaints {A} (m : M A) : Prop :=
  forall w,
    same_inputs w (snd (m w))
    /\ forall w', same_inputs w w' ->
         fst (m w') = fst (m w)
         /\ (figure (snd (m w')) = figure (snd (m w))
             \/ (figure (snd (m w)) = figure w /\ figure (snd (m w')) = figure w')).

(** A statement extends the figure when it only adds artists to it. *)
Definition extends {A} (m : M A) : Prop :=
  forall w l, figure w = Some l ->
    exists arts, figure (snd (m w)) = Some (l ++ arts).

(** The bars of a figure: the heights, the bin edges and the label of
    the first histogram drawn on it. *)
Definition bars_of (f : option (list artist)) : option (list Z * list float * hist_label) :=
  match f with
  | Some (Bars heights edges _ label :: _) => Some (heights, edges, label)
  | _ => None
  end.

(** ** The scenario of the specification *)

Definition scenario_contents : string :=
"header
1,10.0
2,20.0
3,bad
4,30.0
".

Definition scenario_world : world :=
  World {[ "data.csv" := scenario_contents ]} {[ "b" ]} [] [] None.

Definition scenario_argv : list string :=
  ["file=data.csv"; "minrange=0"; "maxrange=40"; "bins=4"].

(** A world without any file. *)
Definition empty_world : world := World ∅ {[ "b" ]} [] [] None.

(** The world that argument parsing leaves; the settings are its first
    dictionary when the heap was empty before. *)
Definition settings_after (argv : list string) (w : world) : world :=
  snd (parse_args argv w).

(** ** Further notions *)

(** The number of occurrences of a character in a text. *)
Fixpoint count_char (c : ascii) (s : string) : nat :=
  match s with
  | EmptyString => 0
  | String d r => (if Ascii.eqb d c then 1 else 0) + count_char c r
  end.

(** What one token does to the settings, as a value: [None] when the
    token is not accepted, the settings with the converted value stored
    under the key as typed when the key is recognized up to case, the
    settings as they are otherwise. *)
Definition token_effect (arg : string) (d : dict) : option dict :=
  match Text.split "=" arg with
  | [key; value] =>
      match token_value key value with
      | Some v =>
          Some (if bool_decide (Text.lower key ∈ recognized_keys)
                then <[key := v]> d else d)
      | None => None
      end
  | _ => None
  end.

(** The settings a command line builds from [d], token after token. *)
Fixpoint settings_of_tokens (argv : list string) (d : dict) : option dict :=
  match argv with
  | [] => Some d
  | arg :: rest =>
      match token_effect arg d with
      | Some d' => settings_of_tokens rest d'
      | None => None
      end
  end.

(** The counts written above the bars: one annotation for each bin with
    a height above zero, at the middle of the bin. *)
Fixpoint annotations_of (bin_length : float) (bars : list (float * Z)) : list artist :=
  match bars with
  | [] => []
  | (b, v) :: rest =>
      if 0 <? v
      then Annotation (F64.add b (F64.div bin_length (F64.of_Z 2))) v v
             :: annotations_of bin_length rest
      else annotations_of bin_length rest
  end.


(** The world after the message of [read_data] about a file that could
    not be opened. *)
Definition after_open_error (filePath : string) (w : world) : world :=
  World (files w) (palette w) (heap w)
    (stdout w ++ ["Error: The file '" +:+ filePath +:+ "' could not be found or opened."])
    (figure w).


(** * Properties *)

(** Membership in a list written out. *)
Ltac in_list := rewrite ?elem_of_cons, ?elem_of_nil in *; intuition congruence.

(** Running a statement: unfold the monad down to matches on worlds. *)
Ltac run_step :=
  unfold mbind, M_bind, mret, M_ret, raise, lift, try_except, py_and in *; simpl in *.

Lemma for_each_nil {A S} (body : S -> A -> M S) (st : S) (w : world) :
  for_each body st [] w = (Ok st, w).
Proof. reflexivity. Qed.

Lemma for_each_cons {A S} (body : S -> A -> M S) (st : S) (x : A) (xs : list A) (w : world) :
  for_each body st (x :: xs) w
  = match body st x w with
    | (Ok st', w') => for_each body st' xs w'
    | (Raise e, w') => (Raise e, w')
    end.
Proof. reflexivity. Qed.

(** ** Sample extraction *)

Lemma read_row_data (i : Z) (data : list float) (line : string) (w : world) :
  i ≠ 0 ->
  read_row (i, data) line w = (Ok (i, data ++ from_option (fun x => [x]) [] (row_sample line)), w).
Proof.
  intros Hi. unfold read_row, row_sample.
  destruct (Z.eqb_spec i 0) as [|_]; [contradiction|].
  destruct (Text.split "," line) as [|f0 [|f1 fs]]; simpl.
  - run_step. by rewrite app_nil_r.
  - run_step. by rewrite app_nil_r.
  - replace (1 <? Z.of_nat (S (S (length fs)))) with true
      by (symmetry; apply Z.ltb_lt; lia).
    unfold py_index, py_float; simpl. run_step.
    destruct (Text.parse_float f1); simpl; [done|].
    by rewrite app_nil_r.
Qed.

Lemma read_row_header (data : list float) (line : string) (w : world) :
  read_row (0, data) line w = (Ok (1, data), w).
Proof. reflexivity. Qed.






(** When the open fails, [read_data] prints the error message and then
    stops on the unbound name [display_help]: nothing else is printed and
    [sys.exit] is not reached. *)
Lemma read_data_open_fails (filePath : string) (w : world) :
  files w !! filePath = None ->
  read_data filePath w
  = (Raise (NameError "display_help"),
     World (files w) (palette w) (heap w)
       (stdout w ++ ["Error: The file '" +:+ filePath +:+ "' could not be found or opened."])
       (figure w)).
Proof.
  intros Hopen. unfold read_data, py_open. run_step. by rewrite Hopen.
Qed.

(** C1.  On a path that cannot be opened, here [missing.csv] in a world
    without files, [read_data] prints the error message naming the path
    and then raises [NameError] for [display_help]: the usage text is not
    printed and [sys.exit(1)] is not executed. *)
Theorem read_data_missing_file :
  read_data "missing.csv" empty_world
  = (Raise (NameError "display_help"),
     World ∅ {[ "b" ]} []
       ["Error: The file 'missing.csv' could not be found or opened."] None)
  /\ (module_doc ∉ stdout (snd (read_data "missing.csv" empty_world)))
  /\ fst (read_data "missing.csv" empty_world) <> Raise (SystemExit (ExitCode 1)).
Proof.
  rewrite read_data_open_fails by reflexivity. simpl.
  split; [reflexivity|]. split; [|discriminate].
  intros H. apply list_elem_of_singleton in H. discriminate H.
Qed.

(** C5.  On the file [header / 1,10.0 / 2,20.0 / 3,bad / 4,30.0] with
    [minrange=0], [maxrange=40] and [bins=4], the samples are 10, 20 and
    30, the bin length is 10, and the bars over the edges 0, 10, 20, 30,
    40 have the heights 0, 1, 1, 1. *)
Theorem scenario_histogram :
  let w := settings_after scenario_argv scenario_world in
  fst (read_data "data.csv" scenario_world)
  = Ok [F64.of_Z 10; F64.of_Z 20; F64.of_Z 30]
  /\ parse_args scenario_argv scenario_world = (Ok 0%nat, w)
  /\ deref w 0%nat !! "minrange" = Some (VFloat (F64.of_Z 0))
  /\ deref w 0%nat !! "maxrange" = Some (VFloat (F64.of_Z 40))
  /\ deref w 0%nat !! "bins" = Some (VInt 4)
  /\ fst (bin_layout 0%nat (VFloat (F64.of_Z 40)) (VFloat (F64.of_Z 0)) w)
     = Ok (VInt 4, VFloat (F64.of_Z 10))
  /\ fst (plot_histogram 0%nat w) = Ok ()
  /\ bars_of (figure (snd (plot_histogram 0%nat w)))
     = Some ([0; 1; 1; 1],
             [F64.of_Z 0; F64.of_Z 10; F64.of_Z 20; F64.of_Z 30; F64.of_Z 40],
             HistLabel 3 (VFloat (F64.of_Z 40)) (VFloat (F64.of_Z 0))
               (VFloat (F64.of_Z 10)) (VInt 4)).
Proof.
  cbv zeta. repeat (split; [vm_compute; reflexivity|]). vm_compute. reflexivity.
Qed.

(** ** Argument parsing *)

Lemma parse_arg_malformed (config : ref) (arg : string) (w : world) :
  malformed arg -> parse_arg config () arg w = usage_exit arg w.
Proof.
  unfold malformed, parse_arg, usage_exit, py_print, sys_exit. intros Hbad.
  destruct (Text.split "=" arg) as [|a [|b [|c l]]]; simpl in Hbad; try done.
Qed.

Lemma parse_arg_two_parts (config : ref) (arg key value : string) (w : world) :
  Text.split "=" arg = [key; value] ->
  parse_arg config () arg w
  = match token_value key value with
    | Some v => (Ok (), store_token config key value v w)
    | None => usage_exit arg w
    end.
Proof.
  intros Hsplit.
  unfold parse_arg, usage_exit, token_value, store_token, recognized_keys,
    py_print, sys_exit, py_float, py_int_of_str, dict_set.
  rewrite Hsplit. run_step.
  destruct (bool_decide (Text.lower key ∈ ["binlength"; "maxrange"; "minrange"])) eqn:E1.
  { apply bool_decide_eq_true in E1.
    rewrite (bool_decide_eq_true_2 (Text.lower key ∈ _)) by in_list.
    destruct (Text.parse_float value); reflexivity. }
  apply bool_decide_eq_false in E1.
  destruct (bool_decide (Text.lower key ∈ ["file"; "color"; "values"])) eqn:E2.
  { apply bool_decide_eq_true in E2.
    rewrite (bool_decide_eq_true_2 (Text.lower key ∈ _)) by in_list.
    rewrite (bool_decide_eq_false_2 (Text.lower key = "bins")); [reflexivity|].
    intros Hk. rewrite Hk in E2. in_list. }
  apply bool_decide_eq_false in E2.
  destruct (bool_decide (Text.lower key = "bins")) eqn:E3.
  { apply bool_decide_eq_true in E3.
    rewrite (bool_decide_eq_true_2 (Text.lower key ∈ _)) by (rewrite E3; in_list).
    destruct (Text.parse_int value); reflexivity. }
  apply bool_decide_eq_false in E3.
  rewrite (bool_decide_eq_false_2 (Text.lower key ∈ _)); [reflexivity|].
  in_list.
Qed.

(** Every token either is stored (or skipped) silently, or ends the run
    with the usage text. *)
Lemma parse_arg_cases (config : ref) (arg : string) (w : world) :
  (exists h, parse_arg config () arg w
             = (Ok (), World (files w) (palette w) h (stdout w) (figure w)))
  \/ parse_arg config () arg w = usage_exit arg w.
Proof.
  destruct (Text.split "=" arg) as [|key [|value [|c l]]] eqn:Hsplit;
    try (right; apply parse_arg_malformed; unfold malformed; rewrite Hsplit; simpl; lia).
  rewrite (parse_arg_two_parts _ _ _ _ _ Hsplit).
  destruct (token_value key value); [left|by right].
  unfold store_token. case_bool_decide; eauto. destruct w; eauto.
Qed.

Lemma parse_loop_malformed (config : ref) (argv : list string) (w : world) :
  Exists malformed argv ->
  exists arg h,
    arg ∈ argv
    /\ for_each (parse_arg config) () argv w
       = (Raise (SystemExit (ExitMessage ("Invalid argument format: " +:+ arg))),
          World (files w) (palette w) h (stdout w ++ [module_doc]) (figure w)).
Proof.
  intros Hex. revert w.
  induction argv as [|a argv IH]; intros w; [by apply Exists_nil in Hex|].
  rewrite for_each_cons.
  destruct (parse_arg_cases config a w) as [[h Hok]| Hexit].
  - apply Exists_cons in Hex as [Hbad|Hex].
    + rewrite parse_arg_malformed by done.
      exists a, (heap w). split; [left|]. done.
    + rewrite Hok.
      destruct (IH Hex (World (files w) (palette w) h (stdout w) (figure w)))
        as (arg & h' & Hin & ->).
      exists arg, h'. split; [by right|done].
  - rewrite Hexit. exists a, (heap w). split; [left|done].
Qed.

Lemma parse_args_malformed (argv : list string) (w : world) :
  Exists malformed argv ->
  exists arg h,
    arg ∈ argv
    /\ parse_args argv w
       = (Raise (SystemExit (ExitMessage ("Invalid argument format: " +:+ arg))),
          World (files w) (palette w) h (stdout w ++ [module_doc]) (figure w)).
Proof.
  intros Hex. unfold parse_args, dict_new. run_step.
  destruct (parse_loop_malformed (length (heap w)) argv
              (World (files w) (palette w) (heap w ++ [default_config]) (stdout w) (figure w)) Hex)
    as (arg & h & Hin & Hrun).
  exists arg, h. split; [done|]. by rewrite Hrun.
Qed.

(** C6.  When some token of the command line is malformed, [main] ends
    in [parse_args]: the usage text is printed, [sys.exit] is called with
    a message naming a token of the command line, so the exit status is
    not zero, and the figure is left as it was: nothing is drawn. *)
Theorem malformed_token_aborts (argv : list string) (frames : list Z) (w : world) :
  Exists malformed argv ->
  exists arg w',
    arg ∈ argv
    /\ main argv frames w
       = (Raise (SystemExit (ExitMessage ("Invalid argument format: " +:+ arg))), w')
    /\ exit_status (fst (main argv frames w)) <> 0
    /\ stdout w' = stdout w ++ [module_doc]
    /\ figure w' = figure w.
Proof.
  intros Hex.
  destruct (parse_args_malformed argv w Hex) as (arg & h & Hin & Hrun).
  exists arg, (World (files w) (palette w) h (stdout w ++ [module_doc]) (figure w)).
  assert (Hmain : main argv frames w
     = (Raise (SystemExit (ExitMessage ("Invalid argument format: " +:+ arg))),
        World (files w) (palette w) h (stdout w ++ [module_doc]) (figure w))).
  { unfold main. unfold mbind at 1, M_bind. by rewrite Hrun. }
  rewrite Hmain. simpl. repeat split; done.
Qed.

Lemma malformed_token_aborts_witness :
  Exists malformed ["file=data.csv"; "bins"]
  /\ exists arg w',
      arg ∈ ["file=data.csv"; "bins"]
      /\ main ["file=data.csv"; "bins"] [0] scenario_world
         = (Raise (SystemExit (ExitMessage ("Invalid argument format: " +:+ arg))), w')
      /\ exit_status (fst (main ["file=data.csv"; "bins"] [0] scenario_world)) <> 0
      /\ stdout w' = stdout scenario_world ++ [module_doc]
      /\ figure w' = figure scenario_world.
Proof.
  assert (H : Exists malformed ["file=data.csv"; "bins"]).
  { apply Exists_cons_tl, Exists_cons_hd. unfold malformed. simpl. lia. }
  split; [exact H|].
  exact (malformed_token_aborts ["file=data.csv"; "bins"] [0] scenario_world H).
Defined.

(** ** Bin layout *)

Lemma compare_Z_zero_finite (s : bool) (m : positive) (e : Z) :
  F64.compare_Z (S754_finite s m e) 0 = Some (if s then Lt else Gt).
Proof.
  unfold F64.compare_Z, F64.signed.
  destruct (Z.leb_spec 0 e) as [He|He].
  - assert (0 < 2 ^ e) by (apply Z.pow_pos_nonneg; lia).
    destruct s; f_equal; [apply Z.compare_lt_iff|apply Z.compare_gt_iff]; nia.
  - destruct s; reflexivity.
Qed.

Lemma py_eq_int_zero (v : pyval) :
  numeric v = true -> py_eq_int v 0 = negb (nonzero v).
Proof.
  destruct v as [n|x|s]; intros Hn; try discriminate.
  - simpl. by rewrite negb_involutive.
  - unfold py_eq_int, nonzero. destruct x as [s|s| |s m e].
    + reflexivity.
    + by destruct s.
    + reflexivity.
    + rewrite compare_Z_zero_finite. by destruct s.
Qed.

Lemma py_gt_int_zero (v : pyval) :
  numeric v = true -> py_gt_int v 0 = Ok (above_zero v).
Proof.
  destruct v as [n|x|s]; intros Hn; try discriminate.
  - reflexivity.
  - unfold py_gt_int, above_zero. destruct x as [s|s| |s m e].
    + reflexivity.
    + by destruct s.
    + reflexivity.
    + rewrite compare_Z_zero_finite. by destruct s.
Qed.

(** The arithmetic of the layout raises no [ValueError]. *)
Lemma num_float_error (v : pyval) (e : exn) :
  num_float v = Raise e -> is_ValueError e = false.
Proof.
  destruct v as [n|x|s]; simpl; unfold to_float; try case_match;
    intros [= <-]; reflexivity.
Qed.

Lemma float_binop_error (f : float -> float -> float) (a b : pyval) (e : exn) :
  float_binop f a b = Raise e -> is_ValueError e = false.
Proof.
  unfold float_binop. intros H.
  destruct a, b; simpl in H; unfold to_float in H;
    repeat case_match; simplify_eq; reflexivity.
Qed.

Lemma py_sub_error (a b : pyval) (e : exn) :
  py_sub a b = Raise e -> is_ValueError e = false.
Proof.
  unfold py_sub. intros H.
  destruct a, b; try discriminate; by apply float_binop_error in H.
Qed.

Lemma py_truediv_error (a b : pyval) (e : exn) :
  py_truediv a b = Raise e -> is_ValueError e = false.
Proof.
  unfold py_truediv. intros H.
  destruct a, b; repeat case_match; simplify_eq; try reflexivity;
    by apply float_binop_error in H.
Qed.

Lemma py_int_error (v : pyval) : py_int v <> Raise config_error.
Proof.
  unfold config_error.
  destruct v as [n|x|s]; simpl; [done| |unfold py_int_of_str; by case_match].
  repeat case_match; discriminate.
Qed.

Lemma dict_get_run (config : ref) (key : string) (v : pyval) (w : world) :
  deref w config !! key = Some v -> dict_get config key w = (Ok v, w).
Proof. intros H. unfold dict_get. by rewrite H. Qed.


(** With numbers under [bins] and [binlength], the layout is a value of
    the settings and the world is left as it was. *)
Lemma bin_layout_run (config : ref) (maxrange minrange bins binlength : pyval) (w : world) :
  deref w config !! "bins" = Some bins ->
  deref w config !! "binlength" = Some binlength ->
  numeric bins = true -> numeric binlength = true ->
  bin_layout config maxrange minrange w
  = (layout_of bins binlength maxrange minrange, w).
Proof.
  intros Hb Hl Nb Nl. unfold bin_layout, layout_of.
  unfold py_and, mbind, M_bind, mret, M_ret, lift, raise, andb.
  repeat (first [ rewrite (dict_get_run _ _ _ _ Hb)
                | rewrite (dict_get_run _ _ _ _ Hl)
                | rewrite py_eq_int_zero by done
                | rewrite py_gt_int_zero by done
                | progress cbv beta iota
                | match goal with
                  | |- context [if ?b then _ else _] => destruct b
                  | |- context [match ?r with Ok _ => _ | Raise _ => _ end] => destruct r
                  end ]);
    reflexivity.
Qed.

Lemma layout_of_error_iff (bins binlength maxrange minrange : pyval) :
  layout_of bins binlength maxrange minrange = Raise config_error
  <-> one_positive_other_zero bins binlength = false.
Proof.
  unfold layout_of, one_positive_other_zero.
  destruct (negb (nonzero bins) && above_zero binlength) eqn:C1; simpl.
  - split; [|done]. intros H. exfalso.
    destruct (py_sub maxrange minrange) as [width|e] eqn:E1.
    + destruct (py_truediv width binlength) as [q|e] eqn:E2.
      * destruct (py_int q) eqn:E3; [done|]. injection H as ->. exact (py_int_error _ E3).
      * apply py_truediv_error in E2. by injection H as ->.
    + apply py_sub_error in E1. by injection H as ->.
  - destruct (negb (nonzero binlength) && above_zero bins) eqn:C2; simpl; [|done].
    split; [|done]. intros H. exfalso.
    destruct (py_sub maxrange minrange) as [width|e] eqn:E1.
    + destruct (py_truediv width bins) as [q|e] eqn:E2; [done|].
      apply py_truediv_error in E2. by injection H as ->.
    + apply py_sub_error in E1. by injection H as ->.
Qed.

(** C2, as amended.  With numbers under [bins] and [binlength], the
    bin layout raises the configuration error if and only if it is not the
    case that one of the two settings is zero and the other one is above
    zero; a negative or NaN setting counts as a missing one. *)
Theorem bin_layout_error_iff (config : ref) (maxrange minrange bins binlength : pyval) (w : world) :
  deref w config !! "bins" = Some bins ->
  deref w config !! "binlength" = Some binlength ->
  numeric bins = true -> numeric binlength = true ->
  fst (bin_layout config maxrange minrange w) = Raise config_error
  <-> one_positive_other_zero bins binlength = false.
Proof.
  intros Hb Hl Nb Nl.
  rewrite (bin_layout_run _ _ _ _ _ _ Hb Hl Nb Nl). simpl.
  apply layout_of_error_iff.
Qed.

Lemma bin_layout_error_iff_witness :
  let w := settings_after ["bins=4"] empty_world in
  deref w 0%nat !! "bins" = Some (VInt 4)
  /\ deref w 0%nat !! "binlength" = Some (VInt 0)
  /\ (fst (bin_layout 0%nat (VFloat (F64.of_Z 40)) (VInt 0) w) = Raise config_error
      <-> one_positive_other_zero (VInt 4) (VInt 0) = false).
Proof.
  cbv zeta. split; [vm_compute; reflexivity|]. split; [vm_compute; reflexivity|].
  apply bin_layout_error_iff; vm_compute; reflexivity.
Defined.

(** C2 as stated fails: with [binlength=-4] and the default [bins],
    exactly one of the two settings is non-zero, and the bin layout raises
    the configuration error all the same. *)
Lemma negative_binlength_is_an_error :
  let w := settings_after ["binlength=-4"] empty_world in
  parse_args ["binlength=-4"] empty_world = (Ok 0%nat, w)
  /\ deref w 0%nat !! "bins" = Some (VInt 0)
  /\ deref w 0%nat !! "binlength" = Some (VFloat (F64.of_Z (-4)))
  /\ exactly_one_nonzero (VInt 0) (VFloat (F64.of_Z (-4))) = true
  /\ fst (bin_layout 0%nat (VFloat (F64.of_Z 1500000)) (VInt 0) w) = Raise config_error.
Proof.
  cbv zeta. repeat (split; [vm_compute; reflexivity|]). vm_compute. reflexivity.
Qed.

Lemma trunc_floor_not_negative (q : float) (n : Z) :
  not_negative q = true -> F64.trunc q = Some n -> F64.floor q = Some n.
Proof.
  destruct q as [s|s| |s m e]; simpl; try done.
  destruct s; [done|]. intros _ <-. unfold F64.signed.
  destruct (Z.leb_spec 0 e); [done|]. f_equal. symmetry.
  apply Z.quot_div_nonneg; [lia|]. apply Z.pow_pos_nonneg; lia.
Qed.

Lemma above_zero_not_zero (x : float) :
  above_zero (VFloat x) = true -> num_is_zero (VFloat x) = false.
Proof. by destruct x as [s|s| |s m e]. Qed.

(** C3, as amended.  With a range whose lower end converts to the float
    [lo]:
    - a positive bin count [B] that converts to the float [Bf], with a
      zero bin length, gives the bin length [(maxrange - lo) / Bf] in
      binary64 arithmetic, and [B] bins;
    - a bin length [L] above zero, with a zero bin count, gives the
      quotient [(maxrange - lo) / L] rounded toward zero as the bin count
      whenever the quotient is finite; this is its floor when the quotient
      is not negative. *)
Theorem bin_layout_values (config : ref) (maxrange : float) (minrange : pyval)
    (lo : float) (w : world) :
  num_float minrange = Ok lo ->
  (forall (B : Z) (binlength : pyval) (Bf : float),
     deref w config !! "bins" = Some (VInt B) ->
     deref w config !! "binlength" = Some binlength ->
     numeric binlength = true -> nonzero binlength = false ->
     0 < B -> to_float B = Ok Bf ->
     bin_layout config (VFloat maxrange) minrange w
     = (Ok (VInt B, VFloat (F64.div (F64.sub maxrange lo) Bf)), w))
  /\ (forall (bins : pyval) (L : float) (n : Z),
        deref w config !! "bins" = Some bins ->
        deref w config !! "binlength" = Some (VFloat L) ->
        numeric bins = true -> nonzero bins = false ->
        above_zero (VFloat L) = true ->
        F64.trunc (F64.div (F64.sub maxrange lo) L) = Some n ->
        bin_layout config (VFloat maxrange) minrange w = (Ok (VInt n, VFloat L), w)
        /\ (not_negative (F64.div (F64.sub maxrange lo) L) = true ->
            F64.floor (F64.div (F64.sub maxrange lo) L) = Some n)).
Proof.
  intros Hlo.
  assert (Hsub : py_sub (VFloat maxrange) minrange = Ok (VFloat (F64.sub maxrange lo))).
  { unfold py_sub, float_binop. destruct minrange; simpl in *; [by rewrite Hlo| |done].
    by injection Hlo as ->. }
  split.
  - intros B binlength Bf Hb Hl Nl Zl HB HBf.
    rewrite (bin_layout_run _ _ _ _ _ _ Hb Hl) by done.
    assert (Hnz : nonzero (VInt B) = true)
      by (simpl; apply negb_true_iff, Z.eqb_neq; lia).
    assert (Hp : above_zero (VInt B) = true) by (apply Z.ltb_lt; lia).
    unfold layout_of. rewrite Hnz, Zl, Hp, Hsub. simpl negb. simpl andb. cbv iota.
    unfold py_truediv.
    replace (num_is_zero (VInt B)) with false by (symmetry; apply Z.eqb_neq; lia).
    unfold float_binop, num_float. by rewrite HBf.
  - intros bins L n Hb Hl Nb Zb PL Hq.
    rewrite (bin_layout_run _ _ _ _ _ _ Hb Hl) by done.
    unfold layout_of. rewrite Zb, PL, Hsub. simpl andb. cbv iota.
    unfold py_truediv. rewrite (above_zero_not_zero _ PL).
    unfold float_binop, num_float, py_int. rewrite Hq.
    split; [done|]. intros Hpos. by apply trunc_floor_not_negative.
Qed.

Lemma bin_layout_values_witness :
  let w := settings_after ["minrange=0"; "maxrange=40"; "bins=4"] empty_world in
  let v := settings_after ["minrange=0"; "maxrange=45"; "binlength=10"] empty_world in
  bin_layout 0%nat (VFloat (F64.of_Z 40)) (VFloat (F64.of_Z 0)) w
  = (Ok (VInt 4, VFloat (F64.div (F64.sub (F64.of_Z 40) (F64.of_Z 0)) (F64.of_Z 4))), w)
  /\ bin_layout 0%nat (VFloat (F64.of_Z 45)) (VFloat (F64.of_Z 0)) v
     = (Ok (VInt 4, VFloat (F64.of_Z 10)), v)
  /\ F64.floor (F64.div (F64.sub (F64.of_Z 45) (F64.of_Z 0)) (F64.of_Z 10)) = Some 4.
Proof.
  cbv zeta. split.
  - apply (proj1 (bin_layout_values 0%nat (F64.of_Z 40) (VFloat (F64.of_Z 0)) (F64.of_Z 0)
                    (settings_after ["minrange=0"; "maxrange=40"; "bins=4"] empty_world)
                    eq_refl) 4 (VInt 0) (F64.of_Z 4));
      vm_compute; reflexivity.
  - destruct (proj2 (bin_layout_values 0%nat (F64.of_Z 45) (VFloat (F64.of_Z 0)) (F64.of_Z 0)
                       (settings_after ["minrange=0"; "maxrange=45"; "binlength=10"] empty_world)
                       eq_refl) (VInt 0) (F64.of_Z 10) 4) as [H1 H2];
      [vm_compute; reflexivity ..|].
    split; [exact H1|]. apply H2. vm_compute. reflexivity.
Defined.

(** C3 as stated fails: with [binlength=4], [minrange=10] and
    [maxrange=0] the quotient is -2.5, the bin count is -2, and the floor
    of the quotient is -3. *)
Lemma bin_count_is_not_the_floor :
  let w := settings_after ["binlength=4"; "minrange=10"; "maxrange=0"] empty_world in
  parse_args ["binlength=4"; "minrange=10"; "maxrange=0"] empty_world = (Ok 0%nat, w)
  /\ deref w 0%nat !! "bins" = Some (VInt 0)
  /\ deref w 0%nat !! "binlength" = Some (VFloat (F64.of_Z 4))
  /\ deref w 0%nat !! "minrange" = Some (VFloat (F64.of_Z 10))
  /\ deref w 0%nat !! "maxrange" = Some (VFloat (F64.of_Z 0))
  /\ fst (bin_layout 0%nat (VFloat (F64.of_Z 0)) (VFloat (F64.of_Z 10)) w)
     = Ok (VInt (-2), VFloat (F64.of_Z 4))
  /\ F64.floor (F64.div (F64.sub (F64.of_Z 0) (F64.of_Z 10)) (F64.of_Z 4)) = Some (-3).
Proof.
  cbv zeta. repeat (split; [vm_compute; reflexivity|]). vm_compute. reflexivity.
Qed.

(** ** Keys that differ from a recognized key by case only *)


Lemma store_token_valid (config : ref) (key value : string) (v : pyval) (w : world) :
  is_Some (heap w !! config) ->
  is_Some (heap (store_token config key value v w) !! config).
Proof.
  intros Hc. unfold store_token. case_bool_decide; [|done]. simpl.
  apply lookup_lt_is_Some. rewrite length_insert. by apply lookup_lt_is_Some.
Qed.






(** ** The settings that argument parsing builds *)

Lemma settings_typed_default : settings_typed default_config.
Proof. unfold settings_typed. repeat split; eauto. Qed.

Lemma settings_typed_insert (key value : string) (v : pyval) (d : dict) :
  token_value key value = Some v ->
  settings_typed d -> settings_typed (<[key := v]> d).
Proof.
  intros Hval (Hbins & Hlen & Hmax & Hmin & Hcol & Hshow).
  unfold settings_typed. rewrite !lookup_insert.
  unfold token_value in Hval.
  repeat split;
    match goal with
    | |- context [decide (key = ?k)] => destruct (decide (key = k)) as [->|Hk]
    end;
    try assumption;
    vm_compute Text.lower in Hval; simpl in Hval;
    destruct (Text.parse_float value), (Text.parse_int value);
    simplify_eq/=; eauto.
Qed.

Lemma parse_arg_ok (config : ref) (arg : string) (w w' : world) :
  parse_arg config () arg w = (Ok (), w') ->
  exists key value v,
    token_value key value = Some v /\ w' = store_token config key value v w.
Proof.
  intros Hrun.
  destruct (Text.split "=" arg) as [|key [|value [|c l]]] eqn:Hsplit;
    try (rewrite parse_arg_malformed in Hrun
           by (unfold malformed; rewrite Hsplit; simpl; lia);
         discriminate Hrun).
  rewrite (parse_arg_two_parts _ _ _ _ _ Hsplit) in Hrun.
  destruct (token_value key value) as [v|] eqn:Hval; [|discriminate Hrun].
  exists key, value, v. split; [done|]. by injection Hrun.
Qed.

Lemma parse_loop_settings (config : ref) (argv : list string) (w w' : world) :
  is_Some (heap w !! config) ->
  settings_typed (deref w config) ->
  for_each (parse_arg config) () argv w = (Ok (), w') ->
  settings_typed (deref w' config).
Proof.
  revert w. induction argv as [|arg argv IH]; intros w Hc Hty Hrun.
  { rewrite for_each_nil in Hrun. by injection Hrun as <-. }
  rewrite for_each_cons in Hrun.
  destruct (parse_arg config () arg w) as [[[]|e] w1] eqn:Harg; [|discriminate Hrun].
  apply parse_arg_ok in Harg as (key & value & v & Hval & ->).
  apply (IH _ (store_token_valid config key value v w Hc)); [|done].
  unfold store_token in *. case_bool_decide as Hk; [|done].
  unfold deref at 1. simpl.
  rewrite list_lookup_insert_eq by (by apply lookup_lt_is_Some). simpl.
  by eapply settings_typed_insert.
Qed.

(** Whatever the command line, the settings that [parse_args] returns
    have the shape [settings_typed]: the bin count and the bin length are
    numbers. *)
Lemma parse_args_settings (argv : list string) (config : ref) (w w' : world) :
  parse_args argv w = (Ok config, w') -> settings_typed (deref w' config).
Proof.
  unfold parse_args, dict_new. unfold mbind, M_bind, mret, M_ret.
  set (w1 := World (files w) (palette w) (heap w ++ [default_config]) (stdout w) (figure w)).
  destruct (for_each (parse_arg (length (heap w))) () argv w1) as [[[]|e] w2] eqn:Hrun;
    [|discriminate].
  intros [= <- <-].
  eapply parse_loop_settings; [| |exact Hrun].
  - apply lookup_lt_is_Some. simpl. rewrite length_app. simpl. lia.
  - unfold deref, w1. simpl. rewrite lookup_app_r, Nat.sub_diag by lia.
    apply settings_typed_default.
Qed.

Lemma settings_typed_numeric (d : dict) :
  settings_typed d ->
  exists bins binlength maxrange minrange lo,
    d !! "bins" = Some bins /\ d !! "binlength" = Some binlength
    /\ numeric bins = true /\ numeric binlength = true
    /\ d !! "maxrange" = Some (VFloat maxrange)
    /\ d !! "minrange" = Some minrange /\ num_float minrange = Ok lo.
Proof.
  intros ([n Hb] & Hl & [mx Hmx] & Hmn & _).
  destruct Hl as [Hl|[x Hl]], Hmn as [Hmn|[y Hmn]];
    repeat eexists; eauto; reflexivity.
Qed.

(** On the settings of any successful parse, the bin layout raises the
    configuration error exactly when it is not the case that one of
    [bins], [binlength] is zero and the other is above zero. *)
Lemma parsed_layout_error_iff (argv : list string) (config : ref) (w0 w : world)
    (maxrange minrange : pyval) :
  parse_args argv w0 = (Ok config, w) ->
  exists bins binlength,
    deref w config !! "bins" = Some bins
    /\ deref w config !! "binlength" = Some binlength
    /\ (fst (bin_layout config maxrange minrange w) = Raise config_error
        <-> one_positive_other_zero bins binlength = false).
Proof.
  intros Hparse.
  destruct (settings_typed_numeric _ (parse_args_settings _ _ _ _ Hparse))
    as (bins & binlength & _ & _ & _ & Hb & Hl & Nb & Nl & _).
  exists bins, binlength. split; [done|]. split; [done|].
  rewrite (bin_layout_run _ _ _ _ _ _ Hb Hl Nb Nl). simpl.
  apply layout_of_error_iff.
Qed.

(** ** A command line without a [file=] token *)







(** ** Effects of the render cycle *)

Lemma same_inputs_refl (w : world) : same_inputs w w.
Proof. by repeat split. Qed.

Lemma same_inputs_sym (w w' : world) : same_inputs w w' -> same_inputs w' w.
Proof. intros (? & ? & ?). by repeat split. Qed.

Lemma same_inputs_trans (w1 w2 w3 : world) :
  same_inputs w1 w2 -> same_inputs w2 w3 -> same_inputs w1 w3.
Proof. intros (? & ? & ?) (? & ? & ?). repeat split; congruence. Qed.

Lemma quiet_ret {A} (a : A) : quiet (mret a).
Proof. intros w. by repeat split. Qed.

Lemma quiet_raise {A} (e : exn) : quiet (@raise A e).
Proof. intros w. by repeat split. Qed.

Lemma quiet_lift {A} (r : result A) : quiet (lift r).
Proof. intros w. by repeat split. Qed.

Lemma quiet_bind {A B} (m : M A) (f : A -> M B) :
  quiet m -> (forall a, quiet (f a)) -> quiet (m ≫= f).
Proof.
  intros Hm Hf w. unfold mbind, M_bind.
  destruct (Hm w) as (Hs & Hfig & Hres).
  assert (Hw : forall w', same_inputs w w' ->
            fst (m w') = fst (m w) /\ same_inputs (snd (m w)) (snd (m w'))).
  { intros w' Hww. split; [by apply Hres|].
    destruct (Hm w') as (Hs' & _ & _).
    eauto using same_inputs_trans, same_inputs_sym. }
  destruct (m w) as [[a|e] w1] eqn:E; simpl in *.
  - destruct (Hf a w1) as (Hs1 & Hfig1 & Hres1).
    split; [eauto using same_inputs_trans|]. split; [congruence|].
    intros w' Hww. destruct (Hw w' Hww) as [Hr Hs'].
    destruct (m w') as [[a'|e'] w1']; simpl in *; [|done].
    injection Hr as ->. by apply Hres1.
  - split; [done|]. split; [done|].
    intros w' Hww. destruct (Hw w' Hww) as [Hr _].
    destruct (m w') as [[a'|e'] w1']; simpl in *; [done|]. by injection Hr as ->.
Qed.

Lemma quiet_try_except {A} (body : M A) (handles : exn -> bool) (handler : exn -> M A) :
  quiet body -> (forall e, quiet (handler e)) -> quiet (try_except body handles handler).
Proof.
  intros Hm Hf w. unfold try_except.
  destruct (Hm w) as (Hs & Hfig & Hres).
  assert (Hw : forall w', same_inputs w w' ->
            fst (body w') = fst (body w) /\ same_inputs (snd (body w)) (snd (body w'))).
  { intros w' Hww. split; [by apply Hres|].
    destruct (Hm w') as (Hs' & _ & _).
    eauto using same_inputs_trans, same_inputs_sym. }
  destruct (body w) as [[a|e] w1] eqn:E; simpl in *.
  - split; [done|]. split; [done|].
    intros w' Hww. destruct (Hw w' Hww) as [Hr _].
    destruct (body w') as [[a'|e'] w1']; simpl in *; done.
  - destruct (handles e) eqn:Hh.
    + destruct (Hf e w1) as (Hs1 & Hfig1 & Hres1).
      split; [eauto using same_inputs_trans|]. split; [congruence|].
      intros w' Hww. destruct (Hw w' Hww) as [Hr Hs'].
      destruct (body w') as [[a'|e'] w1']; simpl in *; [done|].
      injection Hr as ->. rewrite Hh. by apply Hres1.
    + split; [done|]. split; [done|].
      intros w' Hww. destruct (Hw w' Hww) as [Hr _].
      destruct (body w') as [[a'|e'] w1']; simpl in *; [done|].
      injection Hr as ->. by rewrite Hh.
Qed.

Lemma quiet_for_each {A S} (body : S -> A -> M S) (xs : list A) (st : S) :
  (forall st x, quiet (body st x)) -> quiet (for_each body st xs).
Proof.
  intros Hbody. revert st.
  induction xs as [|x xs IH]; intros st; simpl.
  - apply quiet_ret.
  - apply quiet_bind; auto.
Qed.

Lemma quiet_dict_get (config : ref) (key : string) : quiet (dict_get config key).
Proof.
  intros w. unfold dict_get.
  split; [destruct (deref w config !! key); apply same_inputs_refl|].
  split; [by destruct (deref w config !! key)|].
  intros w' (_ & _ & Hh). unfold deref. rewrite Hh.
  by destruct (default ∅ (heap w !! config) !! key).
Qed.

Lemma quiet_py_open (path : string) : quiet (py_open path).
Proof.
  intros w. unfold py_open.
  split; [destruct (files w !! path); apply same_inputs_refl|].
  split; [by destruct (files w !! path)|].
  intros w' (Hf & _ & _). rewrite Hf. by destruct (files w !! path).
Qed.

Lemma quiet_py_print (text : string) : quiet (py_print text).
Proof. intros w. by repeat split. Qed.

Lemma quiet_load_global (name : string) : quiet (load_global name).
Proof. unfold load_global. case_match; [apply quiet_ret|apply quiet_raise]. Qed.

Lemma quiet_known_color (c : pyval) : quiet (Plt.known_color c).
Proof.
  intros w. unfold Plt.known_color.
  split; [destruct c; try case_bool_decide; apply same_inputs_refl|].
  split; [destruct c; try case_bool_decide; reflexivity|].
  intros w' (_ & Hp & _). rewrite Hp. destruct c; try case_bool_decide; reflexivity.
Qed.

Create HintDb quiet.

#[local] Hint Resolve quiet_ret quiet_raise quiet_lift quiet_dict_get quiet_py_open
  quiet_py_print quiet_load_global quiet_known_color : quiet.

Lemma quiet_read_row (st : Z * list float) (line : string) : quiet (read_row st line).
Proof.
  destruct st as [i data]. unfold read_row.
  repeat case_match; auto with quiet.
  apply quiet_try_except; [|auto with quiet].
  repeat (apply quiet_bind; [auto with quiet|intros ?]). auto with quiet.
Qed.

Lemma quiet_read_data (filePath : string) : quiet (read_data filePath).
Proof.
  unfold read_data. apply quiet_try_except.
  - apply quiet_bind; [auto with quiet|intros fhand].
    apply quiet_bind; [|auto with quiet].
    apply quiet_for_each, quiet_read_row.
  - intros _. unfold sys_exit.
    repeat (apply quiet_bind; [auto with quiet|intros ?]). auto with quiet.
Qed.

Lemma quiet_bin_layout (config : ref) (maxrange minrange : pyval) :
  quiet (bin_layout config maxrange minrange).
Proof.
  unfold bin_layout, py_and.
  repeat first [ apply quiet_bind; [|intros ?]
               | match goal with |- quiet (if ?b then _ else _) => destruct b end
               | solve [auto with quiet] ].
Qed.

Lemma painter_of_quiet {A} (m : M A) : quiet m -> painter m.
Proof.
  intros Hm w. destruct (Hm w) as (Hs & Hfig & Hres).
  split; [done|]. intros w' Hww Hf. split; [by apply Hres|].
  destruct (Hm w') as (_ & Hfig' & _). congruence.
Qed.

Lemma painter_bind {A B} (m : M A) (f : A -> M B) :
  painter m -> (forall a, painter (f a)) -> painter (m ≫= f).
Proof.
  intros Hm Hf w. unfold mbind, M_bind.
  destruct (Hm w) as (Hs & Hres).
  assert (Hw : forall w', same_inputs w w' -> figure w' = figure w ->
            fst (m w') = fst (m w)
            /\ figure (snd (m w')) = figure (snd (m w))
            /\ same_inputs (snd (m w)) (snd (m w'))).
  { intros w' Hww Hfig. destruct (Hres w' Hww Hfig) as [Hr Hg].
    split; [done|]. split; [done|].
    destruct (Hm w') as (Hs' & _).
    eauto using same_inputs_trans, same_inputs_sym. }
  destruct (m w) as [[a|e] w1] eqn:E; simpl in *.
  - destruct (Hf a w1) as (Hs1 & Hres1).
    split; [eauto using same_inputs_trans|].
    intros w' Hww Hfig. destruct (Hw w' Hww Hfig) as (Hr & Hg & Hs').
    destruct (m w') as [[a'|e'] w1']; simpl in *; [|done].
    injection Hr as ->. by apply Hres1.
  - split; [done|].
    intros w' Hww Hfig. destruct (Hw w' Hww Hfig) as (Hr & Hg & _).
    destruct (m w') as [[a'|e'] w1']; simpl in *; [done|].
    by injection Hr as ->.
Qed.

Lemma painter_for_each {A S} (body : S -> A -> M S) (xs : list A) (st : S) :
  (forall st x, painter (body st x)) -> painter (for_each body st xs).
Proof.
  intros Hbody. revert st.
  induction xs as [|x xs IH]; intros st; simpl.
  - apply painter_of_quiet, quiet_ret.
  - apply painter_bind; auto.
Qed.

Lemma painter_set_figure (f : option (list artist)) : painter (Plt.set_figure f).
Proof. intros w. by repeat split. Qed.

Lemma painter_draw (a : artist) : painter (Plt.draw a).
Proof.
  intros w. unfold Plt.draw, Plt.set_figure. simpl.
  split; [by repeat split|]. intros w' _ Hfig. by rewrite Hfig.
Qed.

Create HintDb painter.

#[local] Hint Resolve painter_draw painter_set_figure : painter.
#[local] Hint Extern 1 (painter _) => (apply painter_of_quiet; solve [auto with quiet]) : painter.

Lemma painter_annotate (bin_length : pyval) (u : unit) (bv : float * Z) :
  painter (annotate bin_length u bv).
Proof.
  destruct bv as [b v]. unfold annotate, Plt.text.
  case_match; [|auto with painter].
  repeat (apply painter_bind; [auto with painter|intros ?]).
  case_match; auto with painter.
Qed.

Lemma painter_hist (data : list float) (nbins color : pyval) (range : pyval * pyval)
    (label : hist_label) :
  painter (Plt.hist data nbins color range label).
Proof.
  unfold Plt.hist.
  repeat (apply painter_bind; [auto with painter|intros ?]).
  auto with painter.
Qed.

(** A statement that first clears the figure repaints. *)
Lemma repaints_clf {A} (m : M A) : painter m -> repaints (Plt.clf ≫= fun _ => m).
Proof.
  intros Hm w. unfold mbind, M_bind, Plt.clf, Plt.set_figure. simpl.
  set (w1 := World (files w) (palette w) (heap w) (stdout w) (Some [])).
  destruct (Hm w1) as (Hs & Hres).
  split; [exact Hs|].
  intros w' Hww.
  destruct (Hres (World (files w') (palette w') (heap w') (stdout w') (Some [])))
    as [Hr Hg]; [exact Hww|reflexivity|].
  split; [exact Hr|]. by left.
Qed.

Lemma repaints_bind_quiet {A B} (m : M A) (f : A -> M B) :
  quiet m -> (forall a, repaints (f a)) -> repaints (m ≫= f).
Proof.
  intros Hm Hf w. unfold mbind, M_bind.
  destruct (Hm w) as (Hs & Hfig & Hres).
  assert (Hw : forall w', same_inputs w w' ->
            fst (m w') = fst (m w)
            /\ figure (snd (m w')) = figure w'
            /\ same_inputs (snd (m w)) (snd (m w'))).
  { intros w' Hww. split; [by apply Hres|].
    destruct (Hm w') as (Hs' & Hfig' & _). split; [done|].
    eauto using same_inputs_trans, same_inputs_sym. }
  destruct (m w) as [[a|e] w1] eqn:E; simpl in *.
  - destruct (Hf a w1) as (Hs1 & Hres1).
    split; [eauto using same_inputs_trans|].
    intros w' Hww. destruct (Hw w' Hww) as (Hr & Hg & Hs').
    destruct (m w') as [[a'|e'] w1']; simpl in *; [|done].
    injection Hr as ->.
    destruct (Hres1 w1' Hs') as [Hr1 [Hg1|[Hg1 Hg2]]].
    + split; [done|]. by left.
    + split; [done|]. right. split; congruence.
  - split; [done|].
    intros w' Hww. destruct (Hw w' Hww) as (Hr & Hg & _).
    destruct (m w') as [[a'|e'] w1']; simpl in *; [done|].
    injection Hr as ->. split; [done|]. right. by split.
Qed.

Lemma repaints_of_quiet {A} (m : M A) : quiet m -> repaints m.
Proof.
  intros Hm w. destruct (Hm w) as (Hs & Hfig & Hres).
  split; [done|]. intros w' Hww. split; [by apply Hres|].
  right. split; [done|]. by destruct (Hm w') as (_ & ? & _).
Qed.

Lemma repaints_plot_histogram (config : ref) : repaints (plot_histogram config).
Proof.
  unfold plot_histogram.
  apply repaints_bind_quiet; [auto with quiet|intros file].
  apply repaints_bind_quiet;
    [destruct file; auto using quiet_read_data with quiet|intros data].
  do 3 (apply repaints_bind_quiet; [auto with quiet|intros ?]).
  apply repaints_bind_quiet; [apply quiet_bin_layout|intros [nbins bin_length]].
  apply repaints_clf.
  apply painter_bind; [apply painter_hist|intros [values bins]].
  unfold Plt.xlabel, Plt.ylabel, Plt.legend, Plt.xticks.
  repeat (apply painter_bind; [auto with painter|intros ?]).
  case_match; [|auto with painter].
  apply painter_for_each, painter_annotate.
Qed.

Lemma extends_of_quiet {A} (m : M A) : quiet m -> extends m.
Proof.
  intros Hm w l Hl. destruct (Hm w) as (_ & Hfig & _).
  exists []. by rewrite Hfig, app_nil_r.
Qed.

Lemma extends_bind {A B} (m : M A) (f : A -> M B) :
  extends m -> (forall a, extends (f a)) -> extends (m ≫= f).
Proof.
  intros Hm Hf w l Hl. unfold mbind, M_bind.
  destruct (Hm w l Hl) as [arts Harts].
  destruct (m w) as [[a|e] w1]; simpl in *; [|eauto].
  destruct (Hf a w1 _ Harts) as [arts' Harts'].
  exists (arts ++ arts'). by rewrite Harts', app_assoc.
Qed.

Lemma extends_for_each {A S} (body : S -> A -> M S) (xs : list A) (st : S) :
  (forall st x, extends (body st x)) -> extends (for_each body st xs).
Proof.
  intros Hbody. revert st.
  induction xs as [|x xs IH]; intros st; simpl.
  - apply extends_of_quiet, quiet_ret.
  - apply extends_bind; auto.
Qed.

Lemma extends_draw (a : artist) : extends (Plt.draw a).
Proof. intros w l Hl. exists [a]. simpl. by rewrite Hl. Qed.

Create HintDb extends.

#[local] Hint Resolve extends_draw : extends.
#[local] Hint Extern 1 (extends _) => (apply extends_of_quiet; solve [auto with quiet]) : extends.

Lemma extends_annotate (bin_length : pyval) (u : unit) (bv : float * Z) :
  extends (annotate bin_length u bv).
Proof.
  destruct bv as [b v]. unfold annotate, Plt.text.
  case_match; [|auto with extends].
  repeat (apply extends_bind; [auto with extends|intros ?]).
  case_match; auto with extends.
Qed.

Lemma bind_ok {A B} (m : M A) (f : A -> M B) (b : B) (w w' : world) :
  (m ≫= f) w = (Ok b, w') ->
  exists a w1, m w = (Ok a, w1) /\ f a w1 = (Ok b, w').
Proof.
  unfold mbind, M_bind. destruct (m w) as [[a|e] w1]; [eauto|discriminate].
Qed.

Lemma lift_ok {A} (r : result A) (a : A) (w w' : world) :
  lift r w = (Ok a, w') -> r = Ok a /\ w' = w.
Proof. unfold lift. by intros [= -> ->]. Qed.

(** The call of [plt.hist] on an empty figure leaves the bars alone on
    it. *)
Lemma hist_on_clear_figure (data : list float) (nbins color : pyval)
    (range : pyval * pyval) (label : hist_label) (h : list Z * list float) (w w' : world) :
  figure w = Some [] ->
  Plt.hist data nbins color range label w = (Ok h, w') ->
  exists c, figure w' = Some [Bars h.1 h.2 c label].
Proof.
  intros Hfig Hrun. unfold Plt.hist in Hrun.
  apply bind_ok in Hrun as (c & w1 & Hc & Hrun).
  destruct (quiet_known_color color w) as (_ & Hf1 & _). rewrite Hc in Hf1. simpl in Hf1.
  do 4 (apply bind_ok in Hrun as (? & ? & [_ ->]%lift_ok & Hrun)).
  apply bind_ok in Hrun as ([] & w2 & Hdraw & Hret).
  injection Hret as <- <-. injection Hdraw as <-.
  exists c. simpl. by rewrite Hf1, Hfig.
Qed.

(** A render cycle that ends normally leaves a figure that starts with
    the bars of the histogram. *)
Lemma plot_histogram_bars (config : ref) (w w' : world) :
  plot_histogram config w = (Ok (), w') -> is_Some (bars_of (figure w')).
Proof.
  intros Hrun. unfold plot_histogram in Hrun.
  do 6 (apply bind_ok in Hrun as (? & ? & _ & Hrun)).
  match type of Hrun with (let '(_, _) := ?p in _) _ = _ => destruct p as [nbins bin_length] end.
  apply bind_ok in Hrun as ([] & w1 & Hclf & Hrun).
  injection Hclf as <-.
  apply bind_ok in Hrun as ([values bins] & w2 & Hhist & Hrun).
  apply hist_on_clear_figure in Hhist as [c Hfig]; [|done].
  assert (Hext : forall bins values, extends
    (Plt.xlabel "Value" ≫= fun _ => Plt.ylabel "Frequency" ≫= fun _ =>
     Plt.legend ≫= fun _ => Plt.xticks bins ≫= fun _ =>
     dict_get config "values" ≫= fun show =>
     if py_eq_str show "true"
     then for_each (annotate bin_length) () (zip bins values) else mret ())).
  { intros bs vs. unfold Plt.xlabel, Plt.ylabel, Plt.legend, Plt.xticks.
    repeat (apply extends_bind; [auto with extends|intros ?]).
    case_match; [|auto with extends].
    apply extends_for_each, extends_annotate. }
  destruct (Hext bins values w2 _ Hfig) as [arts Harts].
  rewrite Hrun in Harts. simpl in Harts. rewrite Harts. simpl. eauto.
Qed.

(** C7.  Two render cycles in a row, whatever the frame numbers: the
    second one ends as the first one did and leaves the same figure, hence
    the same bars, with the same heights, the same bin edges and the same
    label (number of bins, bin length); the files are the same before and
    after.  When the first cycle ends normally the figure does hold the
    bars. *)
Theorem render_cycle_idempotent (config : ref) (i j : Z) (w : world) :
  let first := draw_histogram i config w in
  let second := draw_histogram j config (snd first) in
  fst second = fst first
  /\ figure (snd second) = figure (snd first)
  /\ bars_of (figure (snd second)) = bars_of (figure (snd first))
  /\ files (snd first) = files w
  /\ files (snd second) = files w
  /\ (fst first = Ok () -> is_Some (bars_of (figure (snd first)))).
Proof.
  unfold draw_histogram. simpl.
  destruct (repaints_plot_histogram config w) as (Hs & Hres).
  destruct (Hres _ Hs) as [Hr Hg].
  destruct (repaints_plot_histogram config (snd (plot_histogram config w))) as (Hs' & _).
  assert (Hfig : figure (snd (plot_histogram config (snd (plot_histogram config w))))
                 = figure (snd (plot_histogram config w)))
    by (destruct Hg as [Hg|[_ Hg]]; exact Hg).
  split; [exact Hr|]. split; [exact Hfig|]. split; [by rewrite Hfig|].
  destruct Hs as (Hf & _), Hs' as (Hf' & _).
  split; [congruence|]. split; [congruence|].
  intros Hok. apply (plot_histogram_bars config w).
  destruct (plot_histogram config w) as [r w1]. simpl in Hok. by rewrite Hok.
Qed.

Lemma render_cycle_idempotent_witness :
  let w := settings_after scenario_argv scenario_world in
  fst (draw_histogram 1 0%nat (snd (draw_histogram 0 0%nat w)))
  = fst (draw_histogram 0 0%nat w)
  /\ bars_of (figure (snd (draw_histogram 1 0%nat (snd (draw_histogram 0 0%nat w)))))
     = bars_of (figure (snd (draw_histogram 0 0%nat w)))
  /\ is_Some (bars_of (figure (snd (draw_histogram 0 0%nat w)))).
Proof.
  cbv zeta.
  destruct (render_cycle_idempotent 0%nat 0 1 (settings_after scenario_argv scenario_world))
    as (H1 & _ & H3 & _ & _ & H6).
  split; [exact H1|]. split; [exact H3|]. apply H6. vm_compute. reflexivity.
Defined.

Lemma frames_keep_heap (config : ref) (frames : list Z) (w : world) :
  heap (snd (for_each (fun _ i => draw_histogram i config) () frames w)) = heap w.
Proof.
  revert w. induction frames as [|i frames IH]; intros w; [done|].
  rewrite for_each_cons. unfold draw_histogram at 1.
  destruct (repaints_plot_histogram config w) as ((_ & _ & Hh) & _).
  destruct (plot_histogram config w) as [[[]|e] w1]; simpl in *; [|done].
  by rewrite IH.
Qed.

(** C8.  Once argument parsing has returned the settings, sample
    extraction, a render cycle and the whole animation leave the settings
    dictionary as it is: no key is added, removed or assigned.  Sample
    extraction and the render cycle leave every dictionary of any world
    as it is. *)
Theorem settings_unchanged (argv : list string) (config : ref) (w0 w : world) :
  parse_args argv w0 = (Ok config, w) ->
  (forall filePath (v : world),
     heap (snd (read_data filePath v)) = heap v
     /\ deref (snd (read_data filePath w)) config = deref w config)
  /\ (forall i (v : world),
        heap (snd (draw_histogram i config v)) = heap v
        /\ deref (snd (draw_histogram i config w)) config = deref w config)
  /\ (forall frames, deref (snd (main argv frames w0)) config = deref w config).
Proof.
  intros Hparse.
  assert (Hread : forall filePath v, heap (snd (read_data filePath v)) = heap v).
  { intros filePath v. by destruct (quiet_read_data filePath v) as ((_ & _ & Hh) & _). }
  assert (Hdraw : forall i v, heap (snd (draw_histogram i config v)) = heap v).
  { intros i v. unfold draw_histogram.
    by destruct (repaints_plot_histogram config v) as ((_ & _ & Hh) & _). }
  split; [|split].
  - intros filePath v. split; [apply Hread|]. unfold deref. by rewrite Hread.
  - intros i v. split; [apply Hdraw|]. unfold deref. by rewrite Hdraw.
  - intros frames. unfold main, Plt.subplots, Plt.set_figure.
    unfold mbind, M_bind. rewrite Hparse. unfold deref.
    by rewrite frames_keep_heap.
Qed.

Lemma settings_unchanged_witness :
  let w := settings_after scenario_argv scenario_world in
  deref (snd (read_data "data.csv" w)) 0%nat = deref w 0%nat
  /\ deref (snd (draw_histogram 0 0%nat w)) 0%nat = deref w 0%nat
  /\ deref (snd (main scenario_argv [0; 1] scenario_world)) 0%nat = deref w 0%nat.
Proof.
  cbv zeta.
  destruct (settings_unchanged scenario_argv 0%nat scenario_world
              (settings_after scenario_argv scenario_world)) as (H1 & H2 & H3);
    [vm_compute; reflexivity|].
  split; [exact (proj2 (H1 "data.csv" scenario_world))|].
  split; [exact (proj2 (H2 0 scenario_world))|]. apply H3.
Defined.

(** * Further properties *)

(** ** Splitting a token *)

Lemma split_length (sep : ascii) (s : string) :
  length (Text.split sep s) = S (count_char sep s).
Proof.
  induction s as [|c r IH]; [done|]. simpl.
  destruct (Ascii.eqb c sep); simpl; [by rewrite IH|].
  destruct (Text.split sep r); simpl in *; [discriminate|done].
Qed.

Lemma split_no_sep (sep : ascii) (a : string) :
  count_char sep a = 0%nat -> Text.split sep a = [a].
Proof.
  induction a as [|c a IH]; [done|]. simpl.
  destruct (Ascii.eqb c sep); [discriminate|]. simpl.
  intros H. by rewrite IH.
Qed.


Lemma malformed_iff_count (arg : string) :
  malformed arg <-> count_char "=" arg <> 1%nat.
Proof. unfold malformed. rewrite split_length. lia. Qed.

(** X1.  A token in which the number of "=" is not one, none at all or
    two and more, as in a value that itself holds "=", ends the run with
    the usage text and a message naming the token, whatever its key. *)
Theorem wrong_number_of_equals (config : ref) (arg : string) (w : world) :
  count_char "=" arg <> 1%nat ->
  parse_arg config () arg w = usage_exit arg w.
Proof. intros H. by apply parse_arg_malformed, malformed_iff_count. Qed.

Lemma wrong_number_of_equals_witness :
  parse_arg 0%nat () "file=run=3.csv" (snd (dict_new default_config empty_world))
  = usage_exit "file=run=3.csv" (snd (dict_new default_config empty_world)).
Proof.
  apply (wrong_number_of_equals 0%nat "file=run=3.csv"). simpl. lia.
Defined.



(** ** Argument parsing as a fold over the tokens *)

Lemma token_effect_accepted (arg : string) (d : dict) :
  is_Some (token_effect arg d) <-> accepted arg.
Proof.
  unfold token_effect, accepted. split.
  - destruct (Text.split "=" arg) as [|key [|value [|c l]]]; try by intros [? ?].
    destruct (token_value key value) eqn:Hv; [|by intros [? ?]].
    intros _. exists key, value. rewrite Hv. eauto.
  - intros (key & value & -> & [v ->]). eauto.
Qed.

Lemma heap_insert_id (config : ref) (w : world) :
  is_Some (heap w !! config) -> <[config := deref w config]> (heap w) = heap w.
Proof.
  intros [d Hd]. apply list_insert_id. unfold deref. by rewrite Hd.
Qed.

(** One turn of the loop of [parse_args] does to the dictionary what
    [token_effect] says, or ends the run with the usage text. *)
Lemma parse_arg_effect (config : ref) (arg : string) (w : world) :
  is_Some (heap w !! config) ->
  parse_arg config () arg w
  = match token_effect arg (deref w config) with
    | Some d' =>
        (Ok (), World (files w) (palette w) (<[config := d']> (heap w))
                  (stdout w) (figure w))
    | None => usage_exit arg w
    end.
Proof.
  intros Hc. unfold token_effect.
  destruct (Text.split "=" arg) as [|key [|value [|c l]]] eqn:Hsplit;
    try (apply parse_arg_malformed; unfold malformed; rewrite Hsplit; simpl; lia).
  rewrite (parse_arg_two_parts _ _ _ _ _ Hsplit).
  destruct (token_value key value) as [v|]; [|done].
  unfold store_token. case_bool_decide; [done|].
  rewrite heap_insert_id by done. by destruct w.
Qed.

Lemma deref_insert (config : ref) (d : dict) (w : world) :
  is_Some (heap w !! config) ->
  deref (World (files w) (palette w) (<[config := d]> (heap w)) (stdout w) (figure w)) config = d.
Proof.
  intros Hc. unfold deref. simpl.
  by rewrite list_lookup_insert_eq by (by apply lookup_lt_is_Some).
Qed.

Lemma parse_loop_fold (config : ref) (argv : list string) (w : world) (d : dict) :
  is_Some (heap w !! config) ->
  settings_of_tokens argv (deref w config) = Some d ->
  for_each (parse_arg config) () argv w
  = (Ok (), World (files w) (palette w) (<[config := d]> (heap w)) (stdout w) (figure w)).
Proof.
  revert w. induction argv as [|arg argv IH]; intros w Hc Hfold; simpl in Hfold.
  - injection Hfold as <-. rewrite for_each_nil, heap_insert_id by done. by destruct w.
  - rewrite for_each_cons, parse_arg_effect by done.
    destruct (token_effect arg (deref w config)) as [d'|]; [|discriminate].
    rewrite IH.
    + simpl. by rewrite list_insert_insert_eq.
    + simpl. apply lookup_lt_is_Some. rewrite length_insert. by apply lookup_lt_is_Some.
    + by rewrite deref_insert.
Qed.

Lemma parse_loop_rejected (config : ref) (pre post : list string) (bad : string)
    (w : world) (d : dict) :
  is_Some (heap w !! config) ->
  settings_of_tokens pre (deref w config) = Some d ->
  ~ accepted bad ->
  for_each (parse_arg config) () (pre ++ bad :: post) w
  = (Raise (SystemExit (ExitMessage ("Invalid argument format: " +:+ bad))),
     World (files w) (palette w) (<[config := d]> (heap w))
       (stdout w ++ [module_doc]) (figure w)).
Proof.
  revert w. induction pre as [|arg pre IH]; intros w Hc Hfold Hbad; simpl in Hfold.
  - injection Hfold as <-. change ([] ++ bad :: post) with (bad :: post).
    rewrite for_each_cons, parse_arg_effect by done.
    destruct (token_effect bad (deref w config)) as [d'|] eqn:He.
    + exfalso. apply Hbad. apply (token_effect_accepted bad (deref w config)).
      rewrite He. eauto.
    + unfold usage_exit. by rewrite heap_insert_id.
  - rewrite <- app_comm_cons, for_each_cons, parse_arg_effect by done.
    destruct (token_effect arg (deref w config)) as [d'|]; [|discriminate].
    rewrite IH.
    + simpl. by rewrite list_insert_insert_eq.
    + simpl. apply lookup_lt_is_Some. rewrite length_insert. by apply lookup_lt_is_Some.
    + by rewrite deref_insert.
    + done.
Qed.

Lemma settings_of_tokens_none (argv : list string) (d : dict) :
  settings_of_tokens argv d = None ->
  exists pre bad post d',
    argv = pre ++ bad :: post
    /\ settings_of_tokens pre d = Some d'
    /\ ~ accepted bad.
Proof.
  revert d. induction argv as [|arg argv IH]; intros d Hfold; simpl in Hfold; [discriminate|].
  destruct (token_effect arg d) as [d1|] eqn:He.
  - destruct (IH d1 Hfold) as (pre & bad & post & d' & -> & Hpre & Hbad).
    exists (arg :: pre), bad, post, d'. simpl. by rewrite He.
  - exists [], arg, argv, d. split; [done|]. split; [done|].
    intros Hacc. apply (token_effect_accepted arg d) in Hacc as [? Hacc]. congruence.
Qed.


(** The world in which the loop of [parse_args] starts. *)
Lemma parse_args_start (w : world) :
  let w1 := World (files w) (palette w) (heap w ++ [default_config]) (stdout w) (figure w) in
  is_Some (heap w1 !! length (heap w))
  /\ deref w1 (length (heap w)) = default_config
  /\ forall d, <[length (heap w) := d]> (heap w1) = heap w ++ [d].
Proof.
  simpl. split; [|split].
  - apply lookup_lt_is_Some. rewrite length_app. simpl. lia.
  - unfold deref. simpl. by rewrite lookup_app_r, Nat.sub_diag by lia.
  - intros d. rewrite insert_app_r_alt, Nat.sub_diag by lia. done.
Qed.

Lemma parse_args_accepts (argv : list string) (w : world) (d : dict) :
  settings_of_tokens argv default_config = Some d ->
  parse_args argv w
  = (Ok (length (heap w)),
     World (files w) (palette w) (heap w ++ [d]) (stdout w) (figure w)).
Proof.
  intros Hfold. destruct (parse_args_start w) as (Hc & Hd & Hins).
  unfold parse_args, dict_new. unfold mbind, M_bind, mret, M_ret.
  rewrite (parse_loop_fold _ _ _ d Hc) by (by rewrite Hd).
  simpl. by rewrite Hins.
Qed.

Lemma parse_args_rejects (pre post : list string) (bad : string) (w : world) (d : dict) :
  settings_of_tokens pre default_config = Some d ->
  ~ accepted bad ->
  parse_args (pre ++ bad :: post) w
  = (Raise (SystemExit (ExitMessage ("Invalid argument format: " +:+ bad))),
     World (files w) (palette w) (heap w ++ [d]) (stdout w ++ [module_doc]) (figure w)).
Proof.
  intros Hpre Hbad. destruct (parse_args_start w) as (Hc & Hd & Hins).
  unfold parse_args, dict_new. unfold mbind, M_bind, mret, M_ret.
  rewrite (parse_loop_rejected _ _ _ _ _ d Hc) by (by rewrite ?Hd).
  simpl. by rewrite Hins.
Qed.







(** ** Keys that are not recognized *)

Lemma token_effect_unknown (arg key value : string) (d : dict) :
  Text.split "=" arg = [key; value] ->
  Text.lower key ∉ recognized_keys ->
  token_effect arg d = Some d.
Proof.
  intros Hsplit Hk. unfold token_effect, token_value. rewrite Hsplit.
  rewrite (bool_decide_eq_false_2 (Text.lower key ∈ ["binlength"; "maxrange"; "minrange"]))
    by (intros H; apply Hk; unfold recognized_keys; in_list).
  rewrite (bool_decide_eq_false_2 (Text.lower key = "bins"))
    by (intros H; apply Hk; rewrite H; unfold recognized_keys; in_list).
  by rewrite bool_decide_eq_false_2.
Qed.

Lemma for_each_app {A S} (body : S -> A -> M S) (xs ys : list A) (st : S) (w : world) :
  for_each body st (xs ++ ys) w
  = match for_each body st xs w with
    | (Ok st', w') => for_each body st' ys w'
    | (Raise e, w') => (Raise e, w')
    end.
Proof.
  revert st w. induction xs as [|x xs IH]; intros st w; [done|].
  rewrite <- app_comm_cons, !for_each_cons.
  destruct (body st x w) as [[st'|e] w']; [apply IH|done].
Qed.

(** X6.  A token with a key that is not recognized, whatever its value,
    is skipped without a word: taking it out of the command line changes
    neither the result of [parse_args] nor the world it leaves. *)
Theorem unknown_key_ignored (pre post : list string) (arg key value : string) (w : world) :
  Text.split "=" arg = [key; value] ->
  Text.lower key ∉ recognized_keys ->
  parse_args (pre ++ arg :: post) w = parse_args (pre ++ post) w.
Proof.
  intros Hsplit Hk.
  destruct (parse_args_start w) as (Hc & _ & _).
  unfold parse_args, dict_new. unfold mbind, M_bind, mret, M_ret.
  rewrite !for_each_app.
  set (w1 := World (files w) (palette w) (heap w ++ [default_config]) (stdout w) (figure w)) in *.
  assert (Hkeep : forall argv v v' r,
            is_Some (heap v !! length (heap w)) ->
            for_each (parse_arg (length (heap w))) () argv v = (r, v') ->
            is_Some (heap v' !! length (heap w))).
  { induction argv as [|a argv IH]; intros v v' r Hv Hrun.
    - rewrite for_each_nil in Hrun. by injection Hrun as _ <-.
    - rewrite for_each_cons, parse_arg_effect in Hrun by done.
      destruct (token_effect a (deref v (length (heap w)))) as [d'|].
      + eapply IH; [|exact Hrun]. simpl.
        apply lookup_lt_is_Some. rewrite length_insert. by apply lookup_lt_is_Some.
      + unfold usage_exit in Hrun. by injection Hrun as _ <-. }
  destruct (for_each (parse_arg (length (heap w))) () pre w1) as [[[]|e] w2] eqn:Hpre; [|done].
  rewrite for_each_cons, parse_arg_effect by (eapply Hkeep; [exact Hc|exact Hpre]).
  rewrite (token_effect_unknown _ _ _ _ Hsplit Hk).
  rewrite heap_insert_id by (eapply Hkeep; [exact Hc|exact Hpre]).
  by destruct w2.
Qed.

Lemma unknown_key_ignored_witness :
  parse_args (["bins=4"] ++ "colour=red" :: ["file=data.csv"]) scenario_world
  = parse_args (["bins=4"] ++ ["file=data.csv"]) scenario_world.
Proof.
  apply (unknown_key_ignored ["bins=4"] ["file=data.csv"] "colour=red" "colour" "red").
  - reflexivity.
  - vm_compute Text.lower. unfold recognized_keys. in_list.
Defined.

(** ** The last token for a key, and the order of the tokens *)








(** X9.  Whatever the command line, the settings that [parse_args]
    returns hold an integer under [bins], a float or the default zero
    under [binlength] and [minrange], a float under [maxrange], and text
    under [color] and [values]: no token can remove a default or store a
    value of another kind under a lower-case key. *)
Theorem parsed_settings_shape (argv : list string) (config : ref) (w w' : world) :
  parse_args argv w = (Ok config, w') ->
  settings_typed (deref w' config)
  /\ config = length (heap w)
  /\ length (heap w') = S (length (heap w)).
Proof.
  intros Hrun. split; [by eapply parse_args_settings|].
  destruct (settings_of_tokens argv default_config) as [d|] eqn:Hfold.
  - rewrite (parse_args_accepts _ _ _ Hfold) in Hrun. injection Hrun as <- <-.
    simpl. rewrite length_app. simpl. split; [done|lia].
  - destruct (settings_of_tokens_none _ _ Hfold) as (pre & bad & post & d' & -> & Hpre & Hbad).
    rewrite (parse_args_rejects _ _ _ _ _ Hpre Hbad) in Hrun. discriminate Hrun.
Qed.

Lemma parsed_settings_shape_witness :
  settings_typed (deref (settings_after ["bins=4"; "BINS=7"; "minrange=-1e3"] empty_world) 0%nat)
  /\ 0%nat = length (heap empty_world)
  /\ length (heap (settings_after ["bins=4"; "BINS=7"; "minrange=-1e3"] empty_world))
     = S (length (heap empty_world)).
Proof.
  apply (parsed_settings_shape ["bins=4"; "BINS=7"; "minrange=-1e3"] 0%nat empty_world
           (settings_after ["bins=4"; "BINS=7"; "minrange=-1e3"] empty_world)).
  vm_compute. reflexivity.
Defined.

(** ** Reading the samples *)


(** X10.  When the file named by the settings cannot be opened, sample
    extraction and the render cycle both end with [NameError] for
    [display_help], after one message naming the path, whatever the other
    settings are (they are not even read); the figure is left as it was
    and the usage text is not printed. *)
Theorem unopened_file_cycle (config : ref) (filePath : string) (i : Z) (w : world) :
  deref w config !! "file" = Some (VStr filePath) ->
  files w !! filePath = None ->
  read_data filePath w = (Raise (NameError "display_help"), after_open_error filePath w)
  /\ draw_histogram i config w
     = (Raise (NameError "display_help"), after_open_error filePath w).
Proof.
  intros Hfile Hopen.
  assert (Hread := read_data_open_fails filePath w Hopen).
  split; [exact Hread|].
  unfold draw_histogram, plot_histogram. unfold mbind at 1, M_bind.
  rewrite (dict_get_run _ _ _ _ Hfile). unfold mbind at 1, M_bind.
  by rewrite Hread.
Qed.

Lemma unopened_file_cycle_witness :
  let w := settings_after ["file=nowhere.csv"] empty_world in
  read_data "nowhere.csv" w
  = (Raise (NameError "display_help"), after_open_error "nowhere.csv" w)
  /\ draw_histogram 0 0%nat w
     = (Raise (NameError "display_help"), after_open_error "nowhere.csv" w).
Proof.
  cbv zeta.
  apply (unopened_file_cycle 0%nat "nowhere.csv" 0
           (settings_after ["file=nowhere.csv"] empty_world));
    vm_compute; reflexivity.
Defined.

Lemma append_cons (c : ascii) (s t : string) : String c s +:+ t = String c (s +:+ t).
Proof. reflexivity. Qed.

Lemma append_nil_r (s : string) : s +:+ "" = s.
Proof. induction s as [|c s IH]; [done|]. by rewrite append_cons, IH. Qed.


























(** ** The render cycle, step by step *)


Lemma to_float_two : to_float 2 = Ok (F64.of_Z 2).
Proof. reflexivity. Qed.

Lemma half_bin_length (bin_length : float) :
  py_truediv (VFloat bin_length) (VInt 2)
  = Ok (VFloat (F64.div bin_length (F64.of_Z 2))).
Proof.
  unfold py_truediv, float_binop, num_float. rewrite to_float_two. reflexivity.
Qed.

Lemma annotate_step (bin_length b : float) (v : Z) (l : list artist) (w : world) :
  figure w = Some l ->
  annotate (VFloat bin_length) () (b, v) w
  = (Ok (), World (files w) (palette w) (heap w) (stdout w)
              (Some (l ++ annotations_of bin_length [(b, v)]))).
Proof.
  intros Hfig. unfold annotate. cbn [annotations_of].
  destruct (0 <? v).
  - unfold mbind, M_bind, lift. rewrite half_bin_length.
    unfold py_add, float_binop, num_float, Plt.text, Plt.draw, Plt.set_figure.
    by rewrite Hfig.
  - rewrite app_nil_r, <- Hfig. by destruct w.
Qed.

Lemma annotations_of_cons (bin_length : float) (bv : float * Z) (bars : list (float * Z)) :
  annotations_of bin_length (bv :: bars)
  = annotations_of bin_length [bv] ++ annotations_of bin_length bars.
Proof. destruct bv as [b v]. simpl. by destruct (0 <? v). Qed.

Lemma annotate_run (bin_length : float) (bars : list (float * Z)) (l : list artist) (w : world) :
  figure w = Some l ->
  for_each (annotate (VFloat bin_length)) () bars w
  = (Ok (), World (files w) (palette w) (heap w) (stdout w)
              (Some (l ++ annotations_of bin_length bars))).
Proof.
  revert l w. induction bars as [|[b v] bars IH]; intros l w Hfig.
  - rewrite for_each_nil. simpl. rewrite app_nil_r, <- Hfig. by destruct w.
  - rewrite for_each_cons, (annotate_step _ _ _ l) by done.
    rewrite (IH (l ++ annotations_of bin_length [(b, v)])) by done.
    simpl files. simpl palette. simpl heap. simpl stdout.
    by rewrite <- app_assoc, <- annotations_of_cons.
Qed.

(** X14.  The loop that writes the counts adds one annotation for each
    bar whose height is above zero, in the order of the bars, at the left
    edge of the bin plus half the bin length and at the height of the bar,
    showing that height; bars of height zero get none, and the loop never
    fails. *)
Theorem annotate_loop (bin_length : float) (bars : list (float * Z)) (l : list artist)
    (w : world) :
  figure w = Some l ->
  for_each (annotate (VFloat bin_length)) () bars w
  = (Ok (), World (files w) (palette w) (heap w) (stdout w)
              (Some (l ++ annotations_of bin_length bars)))
  /\ annotations_of bin_length bars
     = (fun bv => Annotation (F64.add bv.1 (F64.div bin_length (F64.of_Z 2))) bv.2 bv.2)
         <$> filter (fun bv => 0 < bv.2) bars.
Proof.
  intros Hfig. split; [by apply annotate_run|].
  induction bars as [|[b v] bars IH]; [done|]. simpl.
  destruct (Z.ltb_spec 0 v).
  - rewrite filter_cons_True by done. simpl. by rewrite IH.
  - rewrite filter_cons_False by (simpl; lia). exact IH.
Qed.

Lemma annotate_loop_witness :
  let w := World ∅ ∅ [] [] (Some [Legend]) in
  for_each (annotate (VFloat (F64.of_Z 10))) ()
    [(F64.of_Z 0, 0); (F64.of_Z 10, 3); (F64.of_Z 20, 0); (F64.of_Z 30, 1)] w
  = (Ok (), World ∅ ∅ [] []
              (Some ([Legend] ++ annotations_of (F64.of_Z 10)
                       [(F64.of_Z 0, 0); (F64.of_Z 10, 3); (F64.of_Z 20, 0); (F64.of_Z 30, 1)])))
  /\ annotations_of (F64.of_Z 10)
       [(F64.of_Z 0, 0); (F64.of_Z 10, 3); (F64.of_Z 20, 0); (F64.of_Z 30, 1)]
     = [Annotation (F64.of_Z 15) 3 3; Annotation (F64.of_Z 35) 1 1].
Proof.
  cbv zeta.
  destruct (annotate_loop (F64.of_Z 10)
              [(F64.of_Z 0, 0); (F64.of_Z 10, 3); (F64.of_Z 20, 0); (F64.of_Z 30, 1)]
              [Legend] (World ∅ ∅ [] [] (Some [Legend])) eq_refl) as [H1 H2].
  split; [exact H1|]. vm_compute. reflexivity.
Defined.







(** ** The line end of a row *)

Lemma rstrip_newline (s : string) : Text.rstrip (s +:+ String "010" "") = Text.rstrip s.
Proof.
  induction s as [|c s IH]; [done|].
  rewrite append_cons. simpl. by rewrite IH.
Qed.

Lemma lstrip_newline (s : string) :
  Text.lstrip (s +:+ String "010" "")
  = match Text.lstrip s with
    | EmptyString => EmptyString
    | t => t +:+ String "010" ""
    end.
Proof.
  induction s as [|c s IH]; [done|].
  rewrite append_cons. simpl. destruct (Text.is_space c); [exact IH|].
  by rewrite append_cons.
Qed.

Lemma strip_newline (s : string) : Text.strip (s +:+ String "010" "") = Text.strip s.
Proof.
  unfold Text.strip. rewrite lstrip_newline.
  destruct (Text.lstrip s) as [|c t]; [done|]. apply rstrip_newline.
Qed.

Lemma parse_float_newline (s : string) :
  Text.parse_float (s +:+ String "010" "") = Text.parse_float s.
Proof. unfold Text.parse_float. by rewrite strip_newline. Qed.

Lemma split_app_plain (sep : ascii) (a b : string) :
  count_char sep b = 0%nat ->
  exists init last,
    Text.split sep a = init ++ [last]
    /\ Text.split sep (a +:+ b) = init ++ [last +:+ b].
Proof.
  intros Hb. induction a as [|c r (init & last & Hr & Hrb)].
  - exists [], "". split; [done|]. simpl. by apply split_no_sep.
  - rewrite append_cons. simpl. rewrite Hr, Hrb.
    destruct (Ascii.eqb c sep).
    + exists ("" :: init), last. done.
    + destruct init as [|f init].
      * exists [], (String c last). done.
      * exists (String c f :: init), last. done.
Qed.

Lemma row_sample_newline (line : string) :
  row_sample (line +:+ String "010" "") = row_sample line.
Proof.
  unfold row_sample.
  destruct (split_app_plain "," line (String "010" "") eq_refl)
    as (init & last & -> & ->).
  destruct init as [|f0 [|f1 init]]; simpl; [done| |done].
  apply parse_float_newline.
Qed.

(** X17.  A row counts the same with or without a line feed at its
    end: the loop over the lines does the same with the two, so the last
    row of a file that does not end with a line end is read like the
    others. *)
Theorem line_end_optional (i : Z) (data : list float) (line : string) (w : world) :
  read_row (i, data) (line +:+ String "010" "") w = read_row (i, data) line w.
Proof.
  destruct (Z.eq_dec i 0) as [->|Hi].
  - by rewrite !read_row_header.
  - by rewrite !read_row_data, row_sample_newline.
Qed.

(** ** Settings that the command line does not give *)



